(** * Load balancer lifecycle of mimic: canned_responses/loadbalancer.py

    A shallow embedding of the delete and node-listing handlers and of the
    state check [_verify_and_update_lb_state] they share, over an explicit
    store ([store.lbs], [store.meta]) and an outcome type that keeps Python's
    [KeyError] apart from a normal return. *)

From stdpp Require Import gmap strings list fin_maps pretty.
From Stdlib Require Import ZArith Lia.

Local Open Scope Z_scope.

(** ** Data model *)

(** Modelled from the spec: the textual timestamp kept under
    [lb["updated"]["time"]] and its two conversions, which live in
    mimic.util.helper (not part of this file's source).  The spec makes it an
    opaque value convertible to and from simulated seconds, so a timestamp is
    the number of seconds it stands for. *)
Record timestamp : Type := Timestamp { timestamp_to_seconds : Z }.

(** Modelled from the spec: [seconds_to_timestamp] of mimic.util.helper, the
    inverse of [timestamp_to_seconds]. *)
Definition seconds_to_timestamp (seconds : Z) : timestamp := Timestamp seconds.

(** A node as [_format_nodes_on_lb] builds it. *)
Record Node : Type := {
  node_address : string;
  node_condition : string;
  node_port : Z;
  node_weight : option Z;
  node_type : option string;
  node_id : Z;
  node_status : string
}.

(** The entries of a load balancer dict that the handlers read or write:
    ["status"], ["updated"]["time"] and the optional ["nodes"] list.  The
    remaining entries (name, protocol, port, ...) are never touched here. *)
Record LB : Type := {
  status : string;
  updated_time : timestamp;
  nodes : option (list Node)
}.

Definition with_status (v : string) (lb : LB) : LB :=
  {| status := v; updated_time := updated_time lb; nodes := nodes lb |}.

Definition with_updated_time (v : timestamp) (lb : LB) : LB :=
  {| status := status lb; updated_time := v; nodes := nodes lb |}.

(** [store.lbs] maps a load balancer id to its dict, [store.meta] maps it to
    the metadata dict; a metadata value is the number of seconds the helper
    [set_resource_status] takes as its dwell. *)
Record Store : Type := {
  lbs : gmap Z LB;
  meta : gmap Z (gmap string Z)
}.

Definition with_lbs (f : gmap Z LB → gmap Z LB) (s : Store) : Store :=
  {| lbs := f (lbs s); meta := meta s |}.

Definition with_meta (f : gmap Z (gmap string Z) → gmap Z (gmap string Z))
    (s : Store) : Store :=
  {| lbs := lbs s; meta := f (meta s) |}.

(** ** Exceptions and the store monad *)

Inductive pykey : Type :=
  | KInt (k : Z)
  | KStr (k : string).

Inductive exn : Type :=
  | KeyError (k : pykey).

(** What a call leaves behind: a value or an exception, and in both cases the
    store as mutated so far. *)
Inductive outcome (A : Type) : Type :=
  | Returned (a : A) (s : Store)
  | Raised (e : exn) (s : Store).
Arguments Returned {A} a s.
Arguments Raised {A} e s.

Definition final_store {A} (o : outcome A) : Store :=
  match o with
  | Returned _ s => s
  | Raised _ s => s
  end.

Definition M (A : Type) : Type := Store → outcome A.

Definition ret {A} (a : A) : M A := λ s, Returned a s.

Definition raise {A} (e : exn) : M A := λ s, Raised e s.

Definition bind {A B} (c : M A) (k : A → M B) : M B :=
  λ s, match c s with
       | Returned a s' => k a s'
       | Raised e s' => Raised e s'
       end.

Declare Scope py_scope.
Delimit Scope py_scope with py.
Notation "'let!' x ':=' c 'in' k" := (bind c (λ x, k))
  (at level 10, x name, c at level 100, k at level 200) : py_scope.
Notation "c ';;' k" := (bind c (λ _, k))
  (at level 100, k at level 200, right associativity) : py_scope.
Local Open Scope py_scope.

(** ** Dict primitives *)

(** [store.lbs[lb_id]] *)
Definition lbs_item (lb_id : Z) : M LB :=
  λ s, match lbs s !! lb_id with
       | Some lb => Returned lb s
       | None => Raised (KeyError (KInt lb_id)) s
       end.

(** [lb_id in store.lbs] *)
Definition lbs_contains (lb_id : Z) : M bool :=
  λ s, Returned (bool_decide (is_Some (lbs s !! lb_id))) s.

(** [del store.lbs[lb_id]] *)
Definition lbs_delitem (lb_id : Z) : M unit :=
  λ s, match lbs s !! lb_id with
       | Some _ => Returned tt (with_lbs (delete lb_id) s)
       | None => Raised (KeyError (KInt lb_id)) s
       end.

(** The dict under [store.lbs[lb_id]] is mutated in place: the store sees the
    new entry. *)
Definition lbs_update (lb_id : Z) (f : LB → LB) : M unit :=
  let! lb := lbs_item lb_id in
  λ s, Returned tt (with_lbs (insert lb_id (f lb)) s).

(** [store.lbs[lb_id]["status"]] *)
Definition get_status (lb_id : Z) : M string :=
  let! lb := lbs_item lb_id in ret (status lb).

(** [store.lbs[lb_id]["status"] = v] *)
Definition set_status (lb_id : Z) (v : string) : M unit :=
  lbs_update lb_id (with_status v).

(** [store.lbs[lb_id]["updated"]["time"]] *)
Definition get_updated_time (lb_id : Z) : M timestamp :=
  let! lb := lbs_item lb_id in ret (updated_time lb).

(** [store.lbs[lb_id]["updated"]["time"] = v] *)
Definition set_updated_time (lb_id : Z) (v : timestamp) : M unit :=
  lbs_update lb_id (with_updated_time v).

(** [store.meta[lb_id]] *)
Definition meta_item (lb_id : Z) : M (gmap string Z) :=
  λ s, match meta s !! lb_id with
       | Some m => Returned m s
       | None => Raised (KeyError (KInt lb_id)) s
       end.

(** [key in store.meta[lb_id]] *)
Definition meta_contains (lb_id : Z) (key : string) : M bool :=
  let! m := meta_item lb_id in ret (bool_decide (is_Some (m !! key))).

(** [store.meta[lb_id][key]] *)
Definition get_meta (lb_id : Z) (key : string) : M Z :=
  let! m := meta_item lb_id in
  match m !! key with
  | Some v => ret v
  | None => raise (KeyError (KStr key))
  end.

(** [store.meta[lb_id][key] = v] *)
Definition set_meta (lb_id : Z) (key : string) (v : Z) : M unit :=
  let! m := meta_item lb_id in
  λ s, Returned tt (with_meta (insert lb_id (<[key := v]> m)) s).

(** ** Python's [or] *)

(** [x or d] on integers: zero is the falsy one. *)
Definition or_int (x d : Z) : Z := if decide (x = 0) then d else x.

(** [x or d] where [x] is a status string or [None]. *)
Definition or_status (x : option string) (d : string) : string :=
  match x with
  | Some v => if decide (v = "") then d else v
  | None => d
  end.

(** ** Collaborators from mimic.util.helper *)

(** Modelled from the spec: [set_resource_status] of mimic.util.helper, the
    spec's Status Clock Helper.  It computes the time elapsed since
    [updated_time]; when that is at least [time_delta] it gives [status],
    otherwise nothing. *)
Definition set_resource_status (updated_time : timestamp) (time_delta : Z)
    (status : string) (current_timestamp : Z) : option string :=
  let elapsed := current_timestamp - timestamp_to_seconds updated_time in
  if decide (time_delta ≤ elapsed) then Some status else None.

(** Modelled from the spec: the status [set_resource_status] reports when the
    caller names none; the spec's transition table has BUILD and
    PENDING-UPDATE time out into ACTIVE. *)
Definition default_timeout_status : string := "ACTIVE".

(** Modelled from the spec: the bodies built by [EMPTY_RESPONSE],
    [not_found_response] and [invalid_resource] of mimic.util.helper, kept as
    the kind of body with the arguments the handler passes. *)
Inductive body : Type :=
  | EMPTY_RESPONSE
  | not_found_response (resource : string)
  | invalid_resource (message : string) (code : Z)
  | nodes_body (node_list : list Node).

Definition response : Type := body * Z.

(** ["...{0}...".format(lb_id)] *)
Definition immutable_msg (lb_id : Z) : string :=
  "Must provide valid load balancers: " +:+ pretty lb_id +:+
  " are immutable and could not be processed.".

Definition not_found_msg (lb_id : Z) : string :=
  "Must provide valid load balancers: " +:+ pretty lb_id +:+
  " could not be found.".

(** ** The handlers *)

Definition when (b : bool) (c : M unit) : M unit :=
  if b then c else ret tt.

(** Based on the current state, the metadata on the lb and the time since the
    LB has been in that state, set the appropriate state in [store.lbs]. *)
Definition _verify_and_update_lb_state (lb_id : Z) (set_state : bool)
    (current_timestamp : Z) : M unit :=
  let current_timestring := seconds_to_timestamp current_timestamp in
  let! st := get_status lb_id in
  if decide (st = "BUILD") then
    let! building := get_meta lb_id "lb_building" in
    set_meta lb_id "lb_building" (or_int building 10);;
    let! updated := get_updated_time lb_id in
    let! delta := get_meta lb_id "lb_building" in
    set_status lb_id
      (or_status (set_resource_status updated delta default_timeout_status
                    current_timestamp) "BUILD")
  else
  let! st := get_status lb_id in
  if bool_decide (st = "ACTIVE") && set_state then
    let! has_update := meta_contains lb_id "lb_pending_update" in
    when has_update (set_status lb_id "PENDING-UPDATE");;
    let! has_delete := meta_contains lb_id "lb_pending_delete" in
    when has_delete (set_status lb_id "PENDING-DELETE");;
    let! has_error := meta_contains lb_id "lb_error_state" in
    when has_error (set_status lb_id "ERROR");;
    set_updated_time lb_id current_timestring
  else
  let! st := get_status lb_id in
  if decide (st = "PENDING-UPDATE") then
    let! has_update := meta_contains lb_id "lb_pending_update" in
    when has_update (
      let! updated := get_updated_time lb_id in
      let! delta := get_meta lb_id "lb_pending_update" in
      set_status lb_id
        (or_status (set_resource_status updated delta default_timeout_status
                      current_timestamp) "PENDING-UPDATE"))
  else
  let! st := get_status lb_id in
  if decide (st = "PENDING-DELETE") then
    let! deleting := get_meta lb_id "lb_pending_delete" in
    set_meta lb_id "lb_pending_delete" (or_int deleting 10);;
    let! updated := get_updated_time lb_id in
    let! delta := get_meta lb_id "lb_pending_delete" in
    set_status lb_id
      (or_status (set_resource_status updated delta "DELETED"
                    current_timestamp) "PENDING-DELETE");;
    set_updated_time lb_id current_timestring
  else
  let! st := get_status lb_id in
  if decide (st = "DELETED") then
    let! updated := get_updated_time lb_id in
    set_status lb_id
      (or_status (set_resource_status updated 3600 "DELETING-NOW"
                    current_timestamp) "DELETED");;
    let! st' := get_status lb_id in
    when (bool_decide (st' = "DELETING-NOW")) (lbs_delitem lb_id)
  else ret tt.

(** Python's [any] over a list that has already been built. *)
Definition any (l : list bool) : bool := existsb id l.

(** The delete handler.  A load balancer, on delete, goes into
    PENDING-DELETE and remains in DELETED status afterwards. *)
Definition del_load_balancer (lb_id : Z) (current_timestamp : Z)
    : M response :=
  let! present := lbs_contains lb_id in
  if present then
    let! st := get_status lb_id in
    if decide (st = "PENDING-DELETE") then
      let msg := immutable_msg lb_id in
      ret (invalid_resource msg 400, 400)
    else
    _verify_and_update_lb_state lb_id true current_timestamp;;
    let! st1 := get_status lb_id in
    let! st2 := get_status lb_id in
    let! st3 := get_status lb_id in
    if any [bool_decide (st1 = "ACTIVE");
            bool_decide (st2 = "ERROR");
            bool_decide (st3 = "PENDING-UPDATE")] then
      lbs_delitem lb_id;;
      ret (EMPTY_RESPONSE, 202)
    else
    let! st := get_status lb_id in
    if decide (st = "PENDING-DELETE") then
      ret (EMPTY_RESPONSE, 202)
    else
    let! st := get_status lb_id in
    if decide (st = "DELETED") then
      _verify_and_update_lb_state lb_id true current_timestamp;;
      let msg := not_found_msg lb_id in
      ret (invalid_resource msg 400, 400)
    else ret (not_found_response "loadbalancer", 404)
  else ret (not_found_response "loadbalancer", 404).

(** [d.get("nodes")] followed by a truth test: a missing list and an empty
    one both count as no nodes. *)
Definition truthy_nodes (lb : LB) : option (list Node) :=
  match nodes lb with
  | Some (n :: l) => Some (n :: l)
  | _ => None
  end.

(** Returns the list of nodes remaining on the load balancer. *)
Definition list_nodes (lb_id : Z) (current_timestamp : Z) : M response :=
  let! present := lbs_contains lb_id in
  if present then
    _verify_and_update_lb_state lb_id false current_timestamp;;
    let! present' := lbs_contains lb_id in
    if negb present' then ret (not_found_response "loadbalancer", 404)
    else
    let! st := get_status lb_id in
    if decide (st = "DELETED") then
      ret (invalid_resource "The loadbalancer is marked as deleted." 410, 410)
    else
    let! lb := lbs_item lb_id in
    let node_list :=
      match truthy_nodes lb with
      | Some l => l
      | None => []
      end in
    ret (nodes_body node_list, 200)
  else ret (not_found_response "loadbalancer", 404).

(** ** Sample stores *)

Definition lb_in (st : string) (t0 : Z) : LB :=
  {| status := st; updated_time := seconds_to_timestamp t0; nodes := None |}.

Definition one_lb (lb_id : Z) (st : string) (t0 : Z) (m : gmap string Z)
    : Store :=
  {| lbs := {[ lb_id := lb_in st t0 ]}; meta := {[ lb_id := m ]} |}.

(** ** Running the primitives *)

(** Each primitive applied to a store, as an equation to rewrite with. *)
Section Run.
Context {A B : Type}.

Lemma bind_run (c : M A) (k : A → M B) s :
  bind c k s = match c s with
               | Returned a s' => k a s'
               | Raised e s' => Raised e s'
               end.
Proof. reflexivity. Qed.

Lemma ret_run (a : A) s : ret a s = Returned a s.
Proof. reflexivity. Qed.

Lemma raise_run e s : raise e s = @Raised A e s.
Proof. reflexivity. Qed.
End Run.

Lemma lbs_item_run lb_id s :
  lbs_item lb_id s = match lbs s !! lb_id with
                     | Some lb => Returned lb s
                     | None => Raised (KeyError (KInt lb_id)) s
                     end.
Proof. reflexivity. Qed.

Lemma lbs_contains_run lb_id s :
  lbs_contains lb_id s = Returned (bool_decide (is_Some (lbs s !! lb_id))) s.
Proof. reflexivity. Qed.

Lemma lbs_delitem_run lb_id s :
  lbs_delitem lb_id s = match lbs s !! lb_id with
                        | Some _ => Returned tt (with_lbs (delete lb_id) s)
                        | None => Raised (KeyError (KInt lb_id)) s
                        end.
Proof. reflexivity. Qed.

Lemma lbs_update_run lb_id f s :
  lbs_update lb_id f s =
  match lbs s !! lb_id with
  | Some lb => Returned tt (with_lbs (insert lb_id (f lb)) s)
  | None => Raised (KeyError (KInt lb_id)) s
  end.
Proof. unfold lbs_update. rewrite bind_run, lbs_item_run. by destruct (lbs s !! lb_id). Qed.

Lemma get_status_run lb_id s :
  get_status lb_id s = match lbs s !! lb_id with
                       | Some lb => Returned (status lb) s
                       | None => Raised (KeyError (KInt lb_id)) s
                       end.
Proof. unfold get_status. rewrite bind_run, lbs_item_run. by destruct (lbs s !! lb_id). Qed.

Lemma get_updated_time_run lb_id s :
  get_updated_time lb_id s = match lbs s !! lb_id with
                             | Some lb => Returned (updated_time lb) s
                             | None => Raised (KeyError (KInt lb_id)) s
                             end.
Proof. unfold get_updated_time. rewrite bind_run, lbs_item_run. by destruct (lbs s !! lb_id). Qed.

Lemma meta_item_run lb_id s :
  meta_item lb_id s = match meta s !! lb_id with
                      | Some m => Returned m s
                      | None => Raised (KeyError (KInt lb_id)) s
                      end.
Proof. reflexivity. Qed.

Lemma meta_contains_run lb_id key s :
  meta_contains lb_id key s =
  match meta s !! lb_id with
  | Some m => Returned (bool_decide (is_Some (m !! key))) s
  | None => Raised (KeyError (KInt lb_id)) s
  end.
Proof. unfold meta_contains. rewrite bind_run, meta_item_run. by destruct (meta s !! lb_id). Qed.

Lemma get_meta_run lb_id key s :
  get_meta lb_id key s =
  match meta s !! lb_id with
  | Some m => match m !! key with
              | Some v => Returned v s
              | None => Raised (KeyError (KStr key)) s
              end
  | None => Raised (KeyError (KInt lb_id)) s
  end.
Proof.
  unfold get_meta. rewrite bind_run, meta_item_run.
  destruct (meta s !! lb_id) as [m|]; [|done]. by destruct (m !! key).
Qed.

Lemma set_meta_run lb_id key v s :
  set_meta lb_id key v s =
  match meta s !! lb_id with
  | Some m => Returned tt (with_meta (insert lb_id (<[key := v]> m)) s)
  | None => Raised (KeyError (KInt lb_id)) s
  end.
Proof. unfold set_meta. rewrite bind_run, meta_item_run. by destruct (meta s !! lb_id). Qed.

Create Rewrite HintDb py_run.
#[local] Hint Rewrite @bind_run @ret_run @raise_run lbs_item_run lbs_contains_run
  lbs_delitem_run lbs_update_run get_status_run get_updated_time_run
  meta_item_run meta_contains_run get_meta_run set_meta_run : py_run.

Ltac py_step :=
  first
    [ progress (autorewrite with py_run)
    | progress (cbn [lbs meta with_lbs with_meta status updated_time nodes
                     with_status with_updated_time negb andb orb when
                     any existsb id])
    | rewrite lookup_insert_eq
    | rewrite lookup_delete_eq
    | match goal with
      | H : ?m !! ?k = _ |- context [?m !! ?k] => rewrite H
      | H : status ?lb = _ |- context [status ?lb] => rewrite H
      | H : bool_decide ?P = _ |- context [bool_decide ?P] => rewrite H
      end
    | rewrite decide_True by done
    | rewrite decide_False by done
    | rewrite bool_decide_eq_true_2 by done
    | rewrite bool_decide_eq_false_2 by done ].

Ltac py_run := unfold set_status, set_updated_time; repeat py_step.

(** ** The state check, branch by branch *)

Lemma or_status_timeout u d st dflt t :
  st ≠ "" →
  or_status (set_resource_status u d st t) dflt =
  if decide (d ≤ t - timestamp_to_seconds u) then st else dflt.
Proof.
  intros Hst. unfold or_status, set_resource_status. cbn zeta.
  case_decide; [|done]. by rewrite decide_False.
Qed.

Lemma store_eta s : {| lbs := lbs s; meta := meta s |} = s.
Proof. by destruct s. Qed.

Lemma with_status_id lb : with_status (status lb) lb = lb.
Proof. by destruct lb. Qed.

Lemma insert_same_lb s lb_id lb :
  lbs s !! lb_id = Some lb → with_lbs (insert lb_id lb) s = s.
Proof. intros H. unfold with_lbs. rewrite insert_id by done. apply store_eta. Qed.

(** Seconds a load balancer has spent since its last recorded update. *)
Definition elapsed (lb : LB) (t : Z) : Z :=
  t - timestamp_to_seconds (updated_time lb).

(** The status left by the three overwrites of the ACTIVE branch, in the
    order the code makes them. *)
Definition active_trigger_status (m : gmap string Z) : string :=
  let st := "ACTIVE" in
  let st := if bool_decide (is_Some (m !! "lb_pending_update"))
            then "PENDING-UPDATE" else st in
  let st := if bool_decide (is_Some (m !! "lb_pending_delete"))
            then "PENDING-DELETE" else st in
  if bool_decide (is_Some (m !! "lb_error_state")) then "ERROR" else st.

Section Branches.
Variables (s : Store) (lb_id : Z) (lb : LB) (t : Z).
Hypothesis Hlb : lbs s !! lb_id = Some lb.

Lemma adv_build m v set_state :
  status lb = "BUILD" →
  meta s !! lb_id = Some m → m !! "lb_building" = Some v →
  _verify_and_update_lb_state lb_id set_state t s =
  Returned tt
    (with_lbs
       (insert lb_id
          (with_status
             (if decide (or_int v 10 ≤ elapsed lb t)
              then "ACTIVE" else "BUILD") lb))
       (with_meta (insert lb_id (<["lb_building" := or_int v 10]> m)) s)).
Proof.
  intros Hst Hm Hv. unfold _verify_and_update_lb_state. py_run.
  by rewrite or_status_timeout.
Qed.

Lemma adv_build_no_dwell m set_state :
  status lb = "BUILD" →
  meta s !! lb_id = Some m → m !! "lb_building" = None →
  _verify_and_update_lb_state lb_id set_state t s =
  Raised (KeyError (KStr "lb_building")) s.
Proof. intros Hst Hm Hv. unfold _verify_and_update_lb_state. by py_run. Qed.

Lemma adv_active_triggered m :
  status lb = "ACTIVE" → meta s !! lb_id = Some m →
  _verify_and_update_lb_state lb_id true t s =
  Returned tt
    (with_lbs
       (insert lb_id
          (with_updated_time (seconds_to_timestamp t)
             (with_status (active_trigger_status m) lb))) s).
Proof.
  intros Hst Hm. unfold _verify_and_update_lb_state, active_trigger_status.
  destruct (bool_decide (is_Some (m !! "lb_pending_update"))) eqn:Hupd;
    destruct (bool_decide (is_Some (m !! "lb_pending_delete"))) eqn:Hdel;
    destruct (bool_decide (is_Some (m !! "lb_error_state"))) eqn:Herr;
    py_run; unfold with_lbs; cbn [lbs meta];
    rewrite ?insert_insert_eq; try done.
  by rewrite <- Hst, with_status_id.
Qed.

Lemma adv_active_read :
  status lb = "ACTIVE" →
  _verify_and_update_lb_state lb_id false t s = Returned tt s.
Proof. intros Hst. unfold _verify_and_update_lb_state. by py_run. Qed.

Lemma adv_pending_update m set_state :
  status lb = "PENDING-UPDATE" → meta s !! lb_id = Some m →
  _verify_and_update_lb_state lb_id set_state t s =
  Returned tt
    match m !! "lb_pending_update" with
    | Some d =>
        with_lbs
          (insert lb_id
             (with_status
                (if decide (d ≤ elapsed lb t)
                 then "ACTIVE" else "PENDING-UPDATE") lb)) s
    | None => s
    end.
Proof.
  intros Hst Hm. unfold _verify_and_update_lb_state.
  destruct (m !! "lb_pending_update") as [d|] eqn:Hd; py_run.
  - by rewrite or_status_timeout.
  - done.
Qed.

Lemma adv_pending_delete m v set_state :
  status lb = "PENDING-DELETE" →
  meta s !! lb_id = Some m → m !! "lb_pending_delete" = Some v →
  _verify_and_update_lb_state lb_id set_state t s =
  Returned tt
    (with_lbs
       (insert lb_id
          (with_updated_time (seconds_to_timestamp t)
             (with_status
                (if decide (or_int v 10 ≤ elapsed lb t)
                 then "DELETED" else "PENDING-DELETE") lb)))
       (with_meta
          (insert lb_id (<["lb_pending_delete" := or_int v 10]> m)) s)).
Proof.
  intros Hst Hm Hv. unfold _verify_and_update_lb_state. py_run.
  rewrite or_status_timeout by done.
  unfold with_lbs; cbn [lbs meta]. by rewrite insert_insert_eq.
Qed.

Lemma adv_deleted set_state :
  status lb = "DELETED" →
  _verify_and_update_lb_state lb_id set_state t s =
  Returned tt
    (if decide (3600 ≤ elapsed lb t) then with_lbs (delete lb_id) s else s).
Proof.
  intros Hst. unfold _verify_and_update_lb_state. py_run.
  rewrite or_status_timeout by done. fold (elapsed lb t).
  case_decide; py_run.
  - unfold with_lbs; cbn [lbs meta]. by rewrite delete_insert_eq.
  - rewrite <- Hst, with_status_id. by rewrite insert_same_lb.
Qed.

Lemma adv_other set_state :
  status lb ∉ ["BUILD"; "ACTIVE"; "PENDING-UPDATE"; "PENDING-DELETE";
               "DELETED"] →
  _verify_and_update_lb_state lb_id set_state t s = Returned tt s.
Proof.
  intros Hst. unfold _verify_and_update_lb_state.
  rewrite !not_elem_of_cons in Hst. destruct Hst as (?&?&?&?&?&_).
  by py_run.
Qed.
End Branches.

Lemma adv_absent s lb_id set_state t :
  lbs s !! lb_id = None →
  _verify_and_update_lb_state lb_id set_state t s =
  Raised (KeyError (KInt lb_id)) s.
Proof. intros H. unfold _verify_and_update_lb_state. by py_run. Qed.

(** ** Metadata is never dropped *)

(** A computation keeps the metadata ids when the ids with a metadata dict
    are the same after it as before, whether it returns or raises. *)
Definition keeps_meta_ids {A} (c : M A) : Prop :=
  ∀ s, dom (meta (final_store (c s))) = dom (meta s).

Section KeepsMetaIds.
Context {A B : Type}.

Lemma keeps_ret (a : A) : keeps_meta_ids (ret a).
Proof. by intros s. Qed.

Lemma keeps_raise e : keeps_meta_ids (@raise A e).
Proof. by intros s. Qed.

Lemma keeps_bind (c : M A) (k : A → M B) :
  keeps_meta_ids c → (∀ a, keeps_meta_ids (k a)) → keeps_meta_ids (bind c k).
Proof.
  intros Hc Hk s. rewrite bind_run. specialize (Hc s).
  destruct (c s) as [a s'|e s']; cbn [final_store] in *; [|done].
  by rewrite Hk.
Qed.
End KeepsMetaIds.

Lemma keeps_lbs_item lb_id : keeps_meta_ids (lbs_item lb_id).
Proof. intros s. rewrite lbs_item_run. by destruct (lbs s !! lb_id). Qed.

Lemma keeps_lbs_contains lb_id : keeps_meta_ids (lbs_contains lb_id).
Proof. by intros s. Qed.

Lemma keeps_lbs_delitem lb_id : keeps_meta_ids (lbs_delitem lb_id).
Proof. intros s. rewrite lbs_delitem_run. by destruct (lbs s !! lb_id). Qed.

Lemma keeps_lbs_update lb_id f : keeps_meta_ids (lbs_update lb_id f).
Proof. intros s. rewrite lbs_update_run. by destruct (lbs s !! lb_id). Qed.

Lemma keeps_get_status lb_id : keeps_meta_ids (get_status lb_id).
Proof. intros s. rewrite get_status_run. by destruct (lbs s !! lb_id). Qed.

Lemma keeps_get_updated_time lb_id : keeps_meta_ids (get_updated_time lb_id).
Proof. intros s. rewrite get_updated_time_run. by destruct (lbs s !! lb_id). Qed.

Lemma keeps_meta_contains lb_id key : keeps_meta_ids (meta_contains lb_id key).
Proof. intros s. rewrite meta_contains_run. by destruct (meta s !! lb_id). Qed.

Lemma keeps_get_meta lb_id key : keeps_meta_ids (get_meta lb_id key).
Proof.
  intros s. rewrite get_meta_run.
  destruct (meta s !! lb_id) as [m|]; [|done]. by destruct (m !! key).
Qed.

Lemma keeps_set_meta lb_id key v : keeps_meta_ids (set_meta lb_id key v).
Proof.
  intros s. rewrite set_meta_run.
  destruct (meta s !! lb_id) as [m|] eqn:Hm; [|done].
  cbn [final_store with_meta meta]. by apply dom_insert_lookup_L.
Qed.

Lemma keeps_when b c : keeps_meta_ids c → keeps_meta_ids (when b c).
Proof. destruct b; [done|]. intros _. apply (keeps_ret tt). Qed.

Lemma keeps_set_status lb_id v : keeps_meta_ids (set_status lb_id v).
Proof. apply keeps_lbs_update. Qed.

Lemma keeps_set_updated_time lb_id v :
  keeps_meta_ids (set_updated_time lb_id v).
Proof. apply keeps_lbs_update. Qed.

Create HintDb keeps discriminated.
#[local] Hint Resolve keeps_lbs_item keeps_lbs_contains keeps_lbs_delitem
  keeps_lbs_update keeps_get_status keeps_get_updated_time keeps_meta_contains
  keeps_get_meta keeps_set_meta keeps_set_status keeps_set_updated_time
  : keeps.

(** Walks a handler body statement by statement. *)
Ltac keeps :=
  repeat first
    [ solve [auto with keeps]
    | match goal with
      | |- keeps_meta_ids (bind _ _) => apply keeps_bind; [|intros ?]
      | |- keeps_meta_ids (ret _) => apply keeps_ret
      | |- keeps_meta_ids (when _ _) => apply keeps_when
      | |- keeps_meta_ids (if ?b then _ else _) => destruct b
      end ].

Lemma adv_keeps_meta_ids lb_id set_state t :
  keeps_meta_ids (_verify_and_update_lb_state lb_id set_state t).
Proof. unfold _verify_and_update_lb_state. keeps. Qed.

Lemma del_keeps_meta_ids lb_id t : keeps_meta_ids (del_load_balancer lb_id t).
Proof.
  unfold del_load_balancer.
  keeps; try apply adv_keeps_meta_ids; keeps.
Qed.

Lemma list_nodes_keeps_meta_ids lb_id t : keeps_meta_ids (list_nodes lb_id t).
Proof.
  unfold list_nodes.
  keeps; try apply adv_keeps_meta_ids; keeps.
Qed.

(** ** The delete handler, case by case *)

Lemma del_absent s lb_id t :
  lbs s !! lb_id = None →
  del_load_balancer lb_id t s =
  Returned (not_found_response "loadbalancer", 404) s.
Proof.
  intros H. unfold del_load_balancer. by py_run.
Qed.

Section DelBranches.
Variables (s : Store) (lb_id : Z) (lb : LB) (t : Z).
Hypothesis Hlb : lbs s !! lb_id = Some lb.

Lemma del_pending_delete :
  status lb = "PENDING-DELETE" →
  del_load_balancer lb_id t s =
  Returned (invalid_resource (immutable_msg lb_id) 400, 400) s.
Proof. intros Hst. unfold del_load_balancer. by py_run. Qed.

Lemma del_deleted_in_grace :
  status lb = "DELETED" → elapsed lb t < 3600 →
  del_load_balancer lb_id t s =
  Returned (invalid_resource (not_found_msg lb_id) 400, 400) s.
Proof.
  intros Hst Ht. unfold del_load_balancer. py_run.
  rewrite (adv_deleted s lb_id lb t Hlb true Hst).
  rewrite decide_False by lia. py_run.
  rewrite (adv_deleted s lb_id lb t Hlb true Hst).
  rewrite decide_False by lia. by py_run.
Qed.

Lemma del_deleted_after_grace :
  status lb = "DELETED" → 3600 ≤ elapsed lb t →
  del_load_balancer lb_id t s =
  Raised (KeyError (KInt lb_id)) (with_lbs (delete lb_id) s).
Proof.
  intros Hst Ht. unfold del_load_balancer. py_run.
  rewrite (adv_deleted s lb_id lb t Hlb true Hst).
  rewrite decide_True by lia. by py_run.
Qed.

Lemma del_active m :
  status lb = "ACTIVE" → meta s !! lb_id = Some m →
  del_load_balancer lb_id t s =
  Returned (EMPTY_RESPONSE, 202)
    (if decide (active_trigger_status m = "PENDING-DELETE")
     then with_lbs
            (insert lb_id
               (with_updated_time (seconds_to_timestamp t)
                  (with_status "PENDING-DELETE" lb))) s
     else with_lbs (delete lb_id) s).
Proof.
  intros Hst Hm. unfold del_load_balancer. py_run.
  rewrite (adv_active_triggered s lb_id lb t Hlb m Hst Hm).
  unfold active_trigger_status.
  destruct (bool_decide (is_Some (m !! "lb_pending_update")));
    destruct (bool_decide (is_Some (m !! "lb_pending_delete")));
    destruct (bool_decide (is_Some (m !! "lb_error_state")));
    py_run; try done;
    unfold with_lbs; cbn [lbs meta]; by rewrite delete_insert_eq.
Qed.
End DelBranches.

(** ** Deleting load balancers *)

(** A load balancer deleted at second 0, with an empty metadata dict. *)
Definition deleted_store : Store := one_lb 1 "DELETED" 0 ∅.

(** The same store once the record is gone: the metadata dict is still
    there. *)
Definition purged_store : Store := {| lbs := ∅; meta := {[ 1 := ∅ ]} |}.

(** C1: on a DELETED load balancer whose 3600 seconds have passed,
    [del_load_balancer] does not give back the 400 response: its first state
    check removes the record, and the status read that follows raises
    [KeyError]. *)
Theorem del_load_balancer_raises_after_grace :
  del_load_balancer 1 4000 deleted_store =
  Raised (KeyError (KInt 1)) purged_store.
Proof. by vm_compute. Qed.

(** C2, as stated, fails: after the purge the record is gone and the metadata
    dict is not. *)
Lemma purge_keeps_metadata_entry :
  status (lb_in "DELETED" 0) = "DELETED"
  ∧ 3600 ≤ elapsed (lb_in "DELETED" 0) 4000
  ∧ _verify_and_update_lb_state 1 true 4000 deleted_store =
    Returned tt purged_store
  ∧ lbs purged_store !! 1 = None
  ∧ meta purged_store !! 1 = Some ∅
  ∧ ¬ (is_Some (meta purged_store !! 1) → is_Some (lbs purged_store !! 1)).
Proof.
  split_and!; [by vm_compute..|].
  intros H. destruct H as [lb Hlb]; [by eexists|]. by vm_compute in Hlb.
Qed.

(** C2, amended: the state check of a DELETED load balancer, 3600 seconds or
    more after its last update, removes the record from [store.lbs] and
    leaves [store.meta] as it was; no call of the state check, returning or
    raising, changes which ids have a metadata dict. *)
Theorem purge_removes_record_only s lb_id lb set_state t :
  lbs s !! lb_id = Some lb → status lb = "DELETED" →
  3600 ≤ elapsed lb t →
  let s' := final_store (_verify_and_update_lb_state lb_id set_state t s) in
  _verify_and_update_lb_state lb_id set_state t s = Returned tt s'
  ∧ lbs s' = delete lb_id (lbs s)
  ∧ lbs s' !! lb_id = None
  ∧ meta s' = meta s
  ∧ ∀ s0 lb_id0 set_state0 t0,
      dom (meta (final_store
                   (_verify_and_update_lb_state lb_id0 set_state0 t0 s0))) =
      dom (meta s0).
Proof.
  intros Hlb Hst Ht. cbn zeta.
  rewrite (adv_deleted s lb_id lb t Hlb set_state Hst).
  rewrite decide_True by done. cbn [final_store with_lbs lbs meta].
  split_and!; try done.
  - apply lookup_delete_eq.
  - intros s0 lb_id0 set_state0 t0. apply adv_keeps_meta_ids.
Qed.

Lemma purge_removes_record_only_witness :
  _verify_and_update_lb_state 1 false 4000 deleted_store =
    Returned tt
      (final_store (_verify_and_update_lb_state 1 false 4000 deleted_store))
  ∧ meta (final_store (_verify_and_update_lb_state 1 false 4000 deleted_store))
    = meta deleted_store.
Proof.
  pose proof (purge_removes_record_only deleted_store 1 (lb_in "DELETED" 0)
                false 4000) as H.
  cbn zeta in H. destruct H as (H1 & _ & _ & H2 & _).
  - reflexivity.
  - reflexivity.
  - vm_compute. discriminate.
  - split; [exact H1 | exact H2].
Defined.

(** A load balancer that entered PENDING-DELETE at second 0. *)
Definition pending_delete_store : Store :=
  one_lb 1 "PENDING-DELETE" 0 {[ "lb_pending_delete" := 10 ]}.

(** C3, as stated, fails: the call answers 400, not 202. *)
Lemma del_pending_delete_not_202 :
  status (lb_in "PENDING-DELETE" 0) = "PENDING-DELETE"
  ∧ lbs pending_delete_store !! 1 = Some (lb_in "PENDING-DELETE" 0)
  ∧ ¬ ∃ b s', del_load_balancer 1 5 pending_delete_store =
               Returned (b, 202) s'.
Proof.
  split_and!; [done..|]. intros (b & s' & H).
  vm_compute in H. discriminate H.
Qed.

(** C3, amended: on a load balancer in PENDING-DELETE, [del_load_balancer]
    answers 400 with the "immutable and could not be processed" body and
    leaves the store as it was: the record is still there, still
    PENDING-DELETE. *)
Theorem del_pending_delete_conflict s lb_id lb t :
  lbs s !! lb_id = Some lb → status lb = "PENDING-DELETE" →
  del_load_balancer lb_id t s =
    Returned (invalid_resource (immutable_msg lb_id) 400, 400) s
  ∧ ∃ lb', lbs (final_store (del_load_balancer lb_id t s)) !! lb_id = Some lb'
           ∧ lb' = lb ∧ status lb' = "PENDING-DELETE".
Proof.
  intros Hlb Hst. rewrite (del_pending_delete s lb_id lb t Hlb Hst).
  split; [done|]. exists lb. by cbn [final_store].
Qed.

Lemma del_pending_delete_conflict_witness :
  del_load_balancer 1 5 pending_delete_store =
    Returned (invalid_resource (immutable_msg 1) 400, 400) pending_delete_store.
Proof.
  apply (del_pending_delete_conflict pending_delete_store 1
           (lb_in "PENDING-DELETE" 0) 5); reflexivity.
Defined.

(** C4, as stated, fails: once the record has been purged, a delete call on
    its id answers 404 with the not-found body, not 400. *)
Lemma del_after_purge_is_404 :
  _verify_and_update_lb_state 1 false 4000 deleted_store =
    Returned tt purged_store
  ∧ del_load_balancer 1 4001 purged_store =
    Returned (not_found_response "loadbalancer", 404) purged_store
  ∧ ¬ ∃ b s', del_load_balancer 1 4001 purged_store = Returned (b, 400) s'.
Proof.
  split_and!; [by vm_compute..|]. intros (b & s' & H).
  vm_compute in H. discriminate H.
Qed.

(** C4, amended: the state check of a load balancer that has been DELETED for
    3600 seconds or more removes its record from [store.lbs], and every
    later [del_load_balancer] call on that id answers 404 with the not-found
    body and leaves the store alone. *)
Theorem purge_then_del_not_found s lb_id lb set_state t :
  lbs s !! lb_id = Some lb → status lb = "DELETED" →
  3600 ≤ elapsed lb t →
  ∃ s', _verify_and_update_lb_state lb_id set_state t s = Returned tt s'
        ∧ lbs s' !! lb_id = None
        ∧ ∀ t', del_load_balancer lb_id t' s' =
                Returned (not_found_response "loadbalancer", 404) s'.
Proof.
  intros Hlb Hst Ht. exists (with_lbs (delete lb_id) s).
  rewrite (adv_deleted s lb_id lb t Hlb set_state Hst).
  rewrite decide_True by done.
  assert (lbs (with_lbs (delete lb_id) s) !! lb_id = None) as Hgone
    by apply lookup_delete_eq.
  split_and!; [done..|]. intros t'. by apply del_absent.
Qed.

Lemma purge_then_del_not_found_witness :
  ∃ s', _verify_and_update_lb_state 1 true 3600 deleted_store = Returned tt s'
        ∧ lbs s' !! 1 = None
        ∧ ∀ t', del_load_balancer 1 t' s' =
                Returned (not_found_response "loadbalancer", 404) s'.
Proof.
  apply (purge_then_del_not_found deleted_store 1 (lb_in "DELETED" 0) true
           3600).
  - reflexivity.
  - reflexivity.
  - vm_compute. discriminate.
Defined.

Lemma active_trigger_status_pending_delete m :
  active_trigger_status m = "PENDING-DELETE" ↔
  is_Some (m !! "lb_pending_delete") ∧ m !! "lb_error_state" = None.
Proof.
  unfold active_trigger_status. rewrite eq_None_not_Some.
  repeat case_bool_decide; split; try done; try tauto.
Qed.

(** An ACTIVE load balancer whose metadata asks for a pending delete. *)
Definition active_delete_store : Store :=
  one_lb 1 "ACTIVE" 0 {[ "lb_pending_delete" := 10 ]}.

(** C5, as stated, fails: with [lb_pending_delete] in the metadata the call
    answers 202 and keeps the record, now PENDING-DELETE, and the second call
    answers 400. *)
Lemma del_active_can_keep_record :
  status (lb_in "ACTIVE" 0) = "ACTIVE"
  ∧ lbs active_delete_store !! 1 = Some (lb_in "ACTIVE" 0)
  ∧ del_load_balancer 1 5 active_delete_store =
    Returned (EMPTY_RESPONSE, 202)
      (one_lb 1 "PENDING-DELETE" 5 {[ "lb_pending_delete" := 10 ]})
  ∧ lbs (one_lb 1 "PENDING-DELETE" 5 {[ "lb_pending_delete" := 10 ]}) !! 1
    ≠ None
  ∧ ¬ ∃ b s', del_load_balancer 1 6
                (one_lb 1 "PENDING-DELETE" 5 {[ "lb_pending_delete" := 10 ]})
              = Returned (b, 404) s'.
Proof.
  split_and!; [by vm_compute..|]. intros (b & s' & H).
  vm_compute in H. discriminate H.
Qed.

(** C5, amended: for an ACTIVE load balancer with a metadata dict,
    [del_load_balancer] answers 202.  Unless [lb_pending_delete] is set
    without [lb_error_state], the record is removed within the call and a
    second call on the id answers 404; with [lb_pending_delete] set and
    [lb_error_state] not, the record stays in the store, PENDING-DELETE. *)
Theorem del_active_accepted s lb_id lb m t :
  lbs s !! lb_id = Some lb → status lb = "ACTIVE" →
  meta s !! lb_id = Some m →
  (m !! "lb_pending_delete" = None ∨ is_Some (m !! "lb_error_state") →
   let s' := with_lbs (delete lb_id) s in
   del_load_balancer lb_id t s = Returned (EMPTY_RESPONSE, 202) s'
   ∧ lbs s' !! lb_id = None
   ∧ ∀ t', del_load_balancer lb_id t' s' =
           Returned (not_found_response "loadbalancer", 404) s')
  ∧ (is_Some (m !! "lb_pending_delete") → m !! "lb_error_state" = None →
     ∃ s' lb',
       del_load_balancer lb_id t s = Returned (EMPTY_RESPONSE, 202) s'
       ∧ lbs s' !! lb_id = Some lb' ∧ status lb' = "PENDING-DELETE").
Proof.
  intros Hlb Hst Hm.
  pose proof (active_trigger_status_pending_delete m) as Hpd.
  rewrite (del_active s lb_id lb t Hlb m Hst Hm). split.
  - intros Hflags. cbn zeta.
    assert (lbs (with_lbs (delete lb_id) s) !! lb_id = None) as Hgone
      by apply lookup_delete_eq.
    rewrite decide_False.
    + split_and!; [done..|]. intros t'. by apply del_absent.
    + rewrite Hpd. intros [[d Hd] He].
      destruct Hflags as [Hnone|[e Hsome]]; congruence.
  - intros Hd He. rewrite decide_True by (by apply Hpd).
    eexists _, _. split; [done|].
    cbn [with_lbs lbs]. by rewrite lookup_insert_eq.
Qed.

Lemma del_active_accepted_witness :
  del_load_balancer 1 5 (one_lb 1 "ACTIVE" 0 ∅) =
    Returned (EMPTY_RESPONSE, 202)
      (with_lbs (delete 1) (one_lb 1 "ACTIVE" 0 ∅))
  ∧ ∀ t', del_load_balancer 1 t' (with_lbs (delete 1) (one_lb 1 "ACTIVE" 0 ∅))
          = Returned (not_found_response "loadbalancer", 404)
              (with_lbs (delete 1) (one_lb 1 "ACTIVE" 0 ∅)).
Proof.
  destruct (del_active_accepted (one_lb 1 "ACTIVE" 0 ∅) 1 (lb_in "ACTIVE" 0)
              ∅ 5) as [H _].
  - reflexivity.
  - reflexivity.
  - reflexivity.
  - destruct H as (H1 & _ & H2); [left; reflexivity|]. by split.
Defined.

(** ** Trigger flags of an ACTIVE load balancer *)

(** The spec's precedence rule in its own words: the flags are looked at in
    this order, and the last one that is set decides. *)
Definition trigger_order : list (string * string) :=
  [ ("lb_pending_update", "PENDING-UPDATE");
    ("lb_pending_delete", "PENDING-DELETE");
    ("lb_error_state", "ERROR") ].

Definition last_matching_trigger (m : gmap string Z) : string :=
  match last (List.filter (λ kv, bool_decide (is_Some (m !! kv.1)))
                trigger_order) with
  | Some kv => kv.2
  | None => "ACTIVE"
  end.

Lemma active_trigger_status_last m :
  active_trigger_status m = last_matching_trigger m.
Proof.
  unfold active_trigger_status, last_matching_trigger, trigger_order.
  cbn [List.filter fst snd].
  by repeat case_bool_decide.
Qed.

(** C6: with triggers enabled, the state check of an ACTIVE load balancer
    sets the status of the last flag that is set in the order pending-update,
    pending-delete, error: PENDING-DELETE when the update and delete flags
    are both set and the error flag is not, ERROR whenever the error flag is
    set. *)
Theorem active_last_trigger_wins s lb_id lb m t :
  lbs s !! lb_id = Some lb → status lb = "ACTIVE" →
  meta s !! lb_id = Some m →
  ∃ lb',
    _verify_and_update_lb_state lb_id true t s =
      Returned tt (with_lbs (insert lb_id lb') s)
    ∧ status lb' = last_matching_trigger m
    ∧ (is_Some (m !! "lb_pending_update") →
       is_Some (m !! "lb_pending_delete") →
       m !! "lb_error_state" = None → status lb' = "PENDING-DELETE")
    ∧ (is_Some (m !! "lb_error_state") → status lb' = "ERROR").
Proof.
  intros Hlb Hst Hm. eexists. split.
  { apply (adv_active_triggered s lb_id lb t Hlb m Hst Hm). }
  cbn [status with_updated_time with_status]. split_and!.
  - apply active_trigger_status_last.
  - intros _ Hd He. apply active_trigger_status_pending_delete. by split.
  - intros He. unfold active_trigger_status.
    by rewrite (bool_decide_eq_true_2 _ He).
Qed.

Lemma active_last_trigger_wins_witness :
  ∃ lb',
    _verify_and_update_lb_state 1 true 7
      (one_lb 1 "ACTIVE" 0
         {[ "lb_pending_update" := 30; "lb_pending_delete" := 20 ]}) =
      Returned tt
        (with_lbs (insert 1 lb')
           (one_lb 1 "ACTIVE" 0
              {[ "lb_pending_update" := 30; "lb_pending_delete" := 20 ]}))
    ∧ status lb' = "PENDING-DELETE".
Proof.
  destruct (active_last_trigger_wins
              (one_lb 1 "ACTIVE" 0
                 {[ "lb_pending_update" := 30; "lb_pending_delete" := 20 ]})
              1 (lb_in "ACTIVE" 0)
              {[ "lb_pending_update" := 30; "lb_pending_delete" := 20 ]} 7)
    as (lb' & Hrun & _ & Hboth & _).
  - reflexivity.
  - reflexivity.
  - reflexivity.
  - exists lb'. split; [exact Hrun|].
    apply Hboth; vm_compute; eauto.
Defined.

(** ** Dwell in BUILD *)

Lemma adv_build_status s lb_id lb m v set_state t :
  lbs s !! lb_id = Some lb → status lb = "BUILD" →
  meta s !! lb_id = Some m → m !! "lb_building" = Some v →
  ∃ s',
    _verify_and_update_lb_state lb_id set_state t s = Returned tt s'
    ∧ lbs s' !! lb_id =
      Some (with_status
              (if decide (or_int v 10 ≤ elapsed lb t)
               then "ACTIVE" else "BUILD") lb)
    ∧ meta s' !! lb_id = Some (<["lb_building" := or_int v 10]> m).
Proof.
  intros Hlb Hst Hm Hv. eexists. split.
  { apply (adv_build s lb_id lb t Hlb m v set_state Hst Hm Hv). }
  cbn [with_lbs with_meta lbs meta]. by rewrite !lookup_insert_eq.
Qed.

(** A load balancer in BUILD whose metadata dict has no [lb_building], and
    one that has no metadata dict at all. *)
Definition build_unset_store : Store := one_lb 1 "BUILD" 0 ∅.

Definition build_bare_store : Store :=
  {| lbs := {[ 1 := lb_in "BUILD" 0 ]}; meta := ∅ |}.

(** C7, as stated, fails: with [lb_building] unset the dwell does not default
    to 10.  The state check 10 seconds after the update raises [KeyError],
    with triggers on or off, and the load balancer stays in BUILD. *)
Lemma build_unset_dwell_raises :
  lbs build_unset_store !! 1 = Some (lb_in "BUILD" 0)
  ∧ meta build_unset_store !! 1 = Some ∅
  ∧ _verify_and_update_lb_state 1 false 10 build_unset_store =
    Raised (KeyError (KStr "lb_building")) build_unset_store
  ∧ _verify_and_update_lb_state 1 true 10 build_unset_store =
    Raised (KeyError (KStr "lb_building")) build_unset_store
  ∧ _verify_and_update_lb_state 1 false 10 build_bare_store =
    Raised (KeyError (KInt 1)) build_bare_store
  ∧ ¬ (∃ s' lb',
         _verify_and_update_lb_state 1 false 10 build_unset_store =
           Returned tt s'
         ∧ lbs s' !! 1 = Some lb' ∧ status lb' = "ACTIVE").
Proof.
  split_and!; [by vm_compute..|]. intros (s' & lb' & H & _).
  vm_compute in H. discriminate H.
Qed.

(** C7, amended: for a load balancer in BUILD whose metadata holds an
    [lb_building] entry [v], the dwell [d] is [v] when [v] is not zero and 10
    when it is.  The state check keeps BUILD while fewer than [d] seconds
    have passed since the last update and sets ACTIVE from exactly [d]
    seconds on; with an entry of zero, a check 5 seconds after the update
    keeps BUILD and a following check at 10 seconds gives ACTIVE. *)
Theorem build_dwell_with_entry s lb_id lb m v set_state t :
  lbs s !! lb_id = Some lb → status lb = "BUILD" →
  meta s !! lb_id = Some m → m !! "lb_building" = Some v →
  let d := if decide (v = 0) then 10 else v in
  let t0 := timestamp_to_seconds (updated_time lb) in
  (∃ s' lb',
     _verify_and_update_lb_state lb_id set_state t s = Returned tt s'
     ∧ lbs s' !! lb_id = Some lb'
     ∧ updated_time lb' = updated_time lb
     ∧ (t - t0 < d → status lb' = "BUILD")
     ∧ (d ≤ t - t0 → status lb' = "ACTIVE"))
  ∧ (v = 0 →
     ∃ s1 lb1 s2 lb2,
       _verify_and_update_lb_state lb_id set_state (t0 + 5) s = Returned tt s1
       ∧ lbs s1 !! lb_id = Some lb1 ∧ status lb1 = "BUILD"
       ∧ _verify_and_update_lb_state lb_id set_state (t0 + 10) s1 =
         Returned tt s2
       ∧ lbs s2 !! lb_id = Some lb2 ∧ status lb2 = "ACTIVE").
Proof.
  intros Hlb Hst Hm Hv d t0. split.
  - destruct (adv_build_status s lb_id lb m v set_state t Hlb Hst Hm Hv)
      as (s' & Hrun & Hlb' & _).
    unfold or_int in Hlb'. fold d in Hlb'.
    eexists s', _. split_and!; [done..| |];
      intros Ht; cbn [status with_status]; unfold elapsed; fold t0.
    + rewrite decide_False by lia. done.
    + rewrite decide_True by lia. done.
  - intros ->.
    destruct (adv_build_status s lb_id lb m 0 set_state (t0 + 5) Hlb Hst Hm Hv)
      as (s1 & Hrun1 & Hlb1 & Hm1).
    assert (elapsed lb (t0 + 5) = 5) as E5 by (unfold elapsed; fold t0; lia).
    rewrite E5 in Hlb1. change (or_int 0 10) with 10 in Hlb1, Hm1.
    rewrite decide_False in Hlb1 by lia.
    destruct (adv_build_status s1 lb_id (with_status "BUILD" lb)
                (<["lb_building" := 10]> m) 10 set_state (t0 + 10)
                Hlb1 eq_refl Hm1 (lookup_insert_eq _ _ _))
      as (s2 & Hrun2 & Hlb2 & _).
    assert (elapsed (with_status "BUILD" lb) (t0 + 10) = 10) as E10
      by (unfold elapsed; cbn [updated_time with_status]; fold t0; lia).
    rewrite E10 in Hlb2. change (or_int 10 10) with 10 in Hlb2.
    rewrite decide_True in Hlb2 by lia.
    eexists s1, _, s2, _. split_and!; done.
Qed.

(** A dwell of 20: still BUILD after 15 seconds, ACTIVE after 20. *)
Lemma build_dwell_with_entry_witness :
  (∃ s' lb',
     _verify_and_update_lb_state 1 false 15
       (one_lb 1 "BUILD" 0 {[ "lb_building" := 20 ]}) = Returned tt s'
     ∧ lbs s' !! 1 = Some lb'
     ∧ status lb' = "BUILD")
  ∧ (∃ s' lb',
       _verify_and_update_lb_state 1 false 20
         (one_lb 1 "BUILD" 0 {[ "lb_building" := 20 ]}) = Returned tt s'
       ∧ lbs s' !! 1 = Some lb'
       ∧ status lb' = "ACTIVE").
Proof.
  split.
  - destruct (build_dwell_with_entry
                (one_lb 1 "BUILD" 0 {[ "lb_building" := 20 ]}) 1
                (lb_in "BUILD" 0) {[ "lb_building" := 20 ]} 20 false 15)
      as [(s' & lb' & Hrun & Hlb' & _ & Hbuild & _) _].
    + reflexivity.
    + reflexivity.
    + reflexivity.
    + reflexivity.
    + exists s', lb'. split_and!; [exact Hrun | exact Hlb' |].
      apply Hbuild. vm_compute. reflexivity.
  - destruct (build_dwell_with_entry
                (one_lb 1 "BUILD" 0 {[ "lb_building" := 20 ]}) 1
                (lb_in "BUILD" 0) {[ "lb_building" := 20 ]} 20 false 20)
      as [(s' & lb' & Hrun & Hlb' & _ & _ & Hactive) _].
    + reflexivity.
    + reflexivity.
    + reflexivity.
    + reflexivity.
    + exists s', lb'. split_and!; [exact Hrun | exact Hlb' |].
      apply Hactive. vm_compute. discriminate.
Defined.

(** ** Listing nodes *)

(** The metadata a state check reads for [lb]: the dict itself, and the dwell
    entry of the status the load balancer is in. *)
Definition meta_ready (s : Store) (lb_id : Z) (lb : LB) : Prop :=
  ∃ m, meta s !! lb_id = Some m
       ∧ (status lb = "BUILD" → is_Some (m !! "lb_building"))
       ∧ (status lb = "PENDING-DELETE" → is_Some (m !! "lb_pending_delete")).

Lemma adv_returns s lb_id lb set_state t :
  lbs s !! lb_id = Some lb → meta_ready s lb_id lb →
  ∃ s', _verify_and_update_lb_state lb_id set_state t s = Returned tt s'.
Proof.
  intros Hlb (m & Hm & Hbuild & Hpd).
  destruct (decide (status lb = "BUILD")) as [Hst|Hn1].
  { destruct (Hbuild Hst) as [v Hv]. eexists.
    apply (adv_build s lb_id lb t Hlb m v set_state Hst Hm Hv). }
  destruct (decide (status lb = "ACTIVE")) as [Hst|Hn2].
  { destruct set_state; eexists.
    - apply (adv_active_triggered s lb_id lb t Hlb m Hst Hm).
    - apply (adv_active_read s lb_id lb t Hlb Hst). }
  destruct (decide (status lb = "PENDING-UPDATE")) as [Hst|Hn3].
  { eexists. apply (adv_pending_update s lb_id lb t Hlb m set_state Hst Hm). }
  destruct (decide (status lb = "PENDING-DELETE")) as [Hst|Hn4].
  { destruct (Hpd Hst) as [v Hv]. eexists.
    apply (adv_pending_delete s lb_id lb t Hlb m v set_state Hst Hm Hv). }
  destruct (decide (status lb = "DELETED")) as [Hst|Hn5].
  { eexists. apply (adv_deleted s lb_id lb t Hlb set_state Hst). }
  eexists. apply (adv_other s lb_id lb t Hlb set_state).
  rewrite !not_elem_of_cons. split_and!; try done. apply not_elem_of_nil.
Qed.

Lemma list_nodes_absent s lb_id t :
  lbs s !! lb_id = None →
  list_nodes lb_id t s = Returned (not_found_response "loadbalancer", 404) s.
Proof. intros H. unfold list_nodes. by py_run. Qed.

(** The node list [list_nodes] answers with: the list under ["nodes"], or the
    empty list when there is none. *)
Lemma truthy_nodes_default lb :
  match truthy_nodes lb with Some l => l | None => [] end
  = default [] (nodes lb).
Proof. unfold truthy_nodes. by destruct (nodes lb) as [[|n l]|]. Qed.

Lemma list_nodes_present s lb_id lb t s' :
  lbs s !! lb_id = Some lb →
  _verify_and_update_lb_state lb_id false t s = Returned tt s' →
  list_nodes lb_id t s =
  Returned
    match lbs s' !! lb_id with
    | None => (not_found_response "loadbalancer", 404)
    | Some lb' =>
        if decide (status lb' = "DELETED")
        then (invalid_resource "The loadbalancer is marked as deleted." 410,
              410)
        else (nodes_body (default [] (nodes lb')), 200)
    end s'.
Proof.
  intros Hlb Hadv. unfold list_nodes. py_run. rewrite Hadv.
  destruct (lbs s' !! lb_id) as [lb'|] eqn:Hlb'; py_run; [|done].
  case_decide; py_run; [done|]. by rewrite truthy_nodes_default.
Qed.

Lemma list_nodes_raised s lb_id lb t e s' :
  lbs s !! lb_id = Some lb →
  _verify_and_update_lb_state lb_id false t s = Raised e s' →
  list_nodes lb_id t s = Raised e s'.
Proof. intros Hlb Hadv. unfold list_nodes. py_run. by rewrite Hadv. Qed.

(** C9: [list_nodes] answers 404 for an id that is not in the store; for an
    id that is, it runs the state check with triggers disabled and answers
    404 when the check removed the record, 410 when the record is DELETED
    after it, and otherwise 200 with the record's nodes, the empty list when
    it has none.  The check does return whenever the metadata it reads is
    there. *)
Theorem list_nodes_cases s lb_id t :
  (lbs s !! lb_id = None →
   list_nodes lb_id t s =
   Returned (not_found_response "loadbalancer", 404) s)
  ∧ (∀ lb s',
       lbs s !! lb_id = Some lb →
       _verify_and_update_lb_state lb_id false t s = Returned tt s' →
       (lbs s' !! lb_id = None →
        list_nodes lb_id t s =
        Returned (not_found_response "loadbalancer", 404) s')
       ∧ (∀ lb', lbs s' !! lb_id = Some lb' → status lb' = "DELETED" →
          list_nodes lb_id t s =
          Returned
            (invalid_resource "The loadbalancer is marked as deleted." 410,
             410) s')
       ∧ (∀ lb', lbs s' !! lb_id = Some lb' → status lb' ≠ "DELETED" →
          list_nodes lb_id t s =
          Returned (nodes_body (default [] (nodes lb')), 200) s'))
  ∧ (∀ lb, lbs s !! lb_id = Some lb → meta_ready s lb_id lb →
       ∃ s', _verify_and_update_lb_state lb_id false t s = Returned tt s').
Proof.
  split_and!.
  - apply list_nodes_absent.
  - intros lb s' Hlb Hadv.
    rewrite (list_nodes_present s lb_id lb t s' Hlb Hadv). split_and!.
    + by intros ->.
    + intros lb' -> Hst. by rewrite decide_True.
    + intros lb' -> Hst. by rewrite decide_False.
  - intros lb Hlb Hready. by apply (adv_returns s lb_id lb false t).
Qed.

(** A load balancer that turned DELETED at second 100 and is asked for its
    nodes 50 seconds later. *)
Lemma list_nodes_cases_witness :
  list_nodes 1 150 (one_lb 1 "DELETED" 100 ∅) =
  Returned (invalid_resource "The loadbalancer is marked as deleted." 410, 410)
    (one_lb 1 "DELETED" 100 ∅).
Proof.
  destruct (list_nodes_cases (one_lb 1 "DELETED" 100 ∅) 1 150)
    as (_ & Hpresent & _).
  destruct (Hpresent (lb_in "DELETED" 100) (one_lb 1 "DELETED" 100 ∅))
    as (_ & Hgone & _).
  - reflexivity.
  - reflexivity.
  - apply (Hgone (lb_in "DELETED" 100)); reflexivity.
Defined.

(** ** The update time of an ACTIVE load balancer *)

Definition active_store : Store := one_lb 1 "ACTIVE" 0 ∅.

(** C8, as stated, fails: a state check with triggers disabled, and with it
    [list_nodes], leaves the update time of an ACTIVE load balancer where it
    was. *)
Lemma read_path_keeps_updated_time :
  status (lb_in "ACTIVE" 0) = "ACTIVE"
  ∧ _verify_and_update_lb_state 1 false 50 active_store =
    Returned tt active_store
  ∧ final_store (list_nodes 1 50 active_store) = active_store
  ∧ updated_time <$> lbs active_store !! 1 = Some (seconds_to_timestamp 0)
  ∧ updated_time <$> lbs active_store !! 1 ≠ Some (seconds_to_timestamp 50).
Proof. split_and!; by vm_compute. Qed.

Lemma active_no_flags m :
  m !! "lb_pending_update" = None → m !! "lb_pending_delete" = None →
  m !! "lb_error_state" = None → active_trigger_status m = "ACTIVE".
Proof.
  intros Hu Hd He. unfold active_trigger_status. rewrite Hu, Hd, He.
  by vm_compute.
Qed.

(** C8, amended: a state check with triggers enabled sets the update time of
    an ACTIVE load balancer to the current time, also when no flag is set and
    the status stays ACTIVE; a state check with triggers disabled leaves the
    store as it was, and so does [list_nodes], which answers 200. *)
Theorem active_refresh_needs_triggers s lb_id lb t :
  lbs s !! lb_id = Some lb → status lb = "ACTIVE" →
  (∀ m, meta s !! lb_id = Some m →
     ∃ lb',
       _verify_and_update_lb_state lb_id true t s =
         Returned tt (with_lbs (insert lb_id lb') s)
       ∧ updated_time lb' = seconds_to_timestamp t
       ∧ (m !! "lb_pending_update" = None →
          m !! "lb_pending_delete" = None →
          m !! "lb_error_state" = None → status lb' = "ACTIVE"))
  ∧ _verify_and_update_lb_state lb_id false t s = Returned tt s
  ∧ list_nodes lb_id t s =
    Returned (nodes_body (default [] (nodes lb)), 200) s.
Proof.
  intros Hlb Hst.
  pose proof (adv_active_read s lb_id lb t Hlb Hst) as Hread.
  split_and!; [|done|].
  - intros m Hm. eexists. split.
    { apply (adv_active_triggered s lb_id lb t Hlb m Hst Hm). }
    split; [done|]. cbn [status with_updated_time with_status].
    apply active_no_flags.
  - rewrite (list_nodes_present s lb_id lb t s Hlb Hread), Hlb.
    rewrite decide_False; [done|]. by rewrite Hst.
Qed.

Lemma active_refresh_needs_triggers_witness :
  (∃ lb',
     _verify_and_update_lb_state 1 true 50 active_store =
       Returned tt (with_lbs (insert 1 lb') active_store)
     ∧ updated_time lb' = seconds_to_timestamp 50
     ∧ status lb' = "ACTIVE")
  ∧ _verify_and_update_lb_state 1 false 50 active_store =
    Returned tt active_store.
Proof.
  destruct (active_refresh_needs_triggers active_store 1 (lb_in "ACTIVE" 0) 50)
    as (Hon & Hoff & _).
  - reflexivity.
  - reflexivity.
  - split; [|exact Hoff].
    destruct (Hon ∅) as (lb' & Hrun & Htime & Hstay); [reflexivity|].
    exists lb'. split_and!; [exact Hrun | exact Htime |].
    apply Hstay; reflexivity.
Defined.

(** ** Triggers on and off *)

Lemma adv_triggers_irrelevant s lb_id t :
  (∀ lb, lbs s !! lb_id = Some lb → status lb ≠ "ACTIVE") →
  _verify_and_update_lb_state lb_id true t s =
  _verify_and_update_lb_state lb_id false t s.
Proof.
  intros Hst. unfold _verify_and_update_lb_state.
  destruct (lbs s !! lb_id) as [lb|] eqn:Hlb; py_run; [|done].
  case_decide; [done|]. py_run.
  by rewrite bool_decide_eq_false_2 by by apply Hst.
Qed.

(** C10: for a load balancer in BUILD, PENDING-UPDATE, PENDING-DELETE,
    DELETED or ERROR (in fact in any status but ACTIVE) the state check with
    triggers enabled and the one with triggers disabled have the same
    outcome; with triggers disabled BUILD and PENDING-UPDATE still time out
    into ACTIVE, PENDING-DELETE into DELETED, and a DELETED record is removed
    after 3600 seconds. *)
Theorem triggers_only_matter_when_active s lb_id lb t :
  lbs s !! lb_id = Some lb → status lb ≠ "ACTIVE" →
  _verify_and_update_lb_state lb_id true t s =
    _verify_and_update_lb_state lb_id false t s
  ∧ (∀ m v, status lb = "BUILD" → meta s !! lb_id = Some m →
       m !! "lb_building" = Some v → or_int v 10 ≤ elapsed lb t →
       ∃ s' lb', _verify_and_update_lb_state lb_id false t s = Returned tt s'
                 ∧ lbs s' !! lb_id = Some lb' ∧ status lb' = "ACTIVE")
  ∧ (∀ m d, status lb = "PENDING-UPDATE" → meta s !! lb_id = Some m →
       m !! "lb_pending_update" = Some d → d ≤ elapsed lb t →
       ∃ s' lb', _verify_and_update_lb_state lb_id false t s = Returned tt s'
                 ∧ lbs s' !! lb_id = Some lb' ∧ status lb' = "ACTIVE")
  ∧ (∀ m v, status lb = "PENDING-DELETE" → meta s !! lb_id = Some m →
       m !! "lb_pending_delete" = Some v → or_int v 10 ≤ elapsed lb t →
       ∃ s' lb', _verify_and_update_lb_state lb_id false t s = Returned tt s'
                 ∧ lbs s' !! lb_id = Some lb' ∧ status lb' = "DELETED")
  ∧ (status lb = "DELETED" → 3600 ≤ elapsed lb t →
       ∃ s', _verify_and_update_lb_state lb_id false t s = Returned tt s'
             ∧ lbs s' !! lb_id = None).
Proof.
  intros Hlb Hna. split_and!.
  - apply adv_triggers_irrelevant. intros lb0 Hlb0. congruence.
  - intros m v Hst Hm Hv Ht. eexists _, _. split.
    { apply (adv_build s lb_id lb t Hlb m v false Hst Hm Hv). }
    cbn [with_lbs with_meta lbs]. rewrite lookup_insert_eq.
    split; [done|]. cbn [status with_status]. by rewrite decide_True.
  - intros m d Hst Hm Hd Ht. eexists _, _. split.
    { apply (adv_pending_update s lb_id lb t Hlb m false Hst Hm). }
    rewrite Hd. cbn [with_lbs lbs]. rewrite lookup_insert_eq.
    split; [done|]. cbn [status with_status]. by rewrite decide_True.
  - intros m v Hst Hm Hv Ht. eexists _, _. split.
    { apply (adv_pending_delete s lb_id lb t Hlb m v false Hst Hm Hv). }
    cbn [with_lbs with_meta lbs]. rewrite lookup_insert_eq.
    split; [done|]. cbn [status with_status with_updated_time].
    by rewrite decide_True.
  - intros Hst Ht. eexists. split.
    { apply (adv_deleted s lb_id lb t Hlb false Hst). }
    rewrite decide_True by done. apply lookup_delete_eq.
Qed.

Lemma triggers_only_matter_when_active_witness :
  _verify_and_update_lb_state 1 true 15 pending_delete_store =
    _verify_and_update_lb_state 1 false 15 pending_delete_store
  ∧ ∃ s' lb',
      _verify_and_update_lb_state 1 false 15 pending_delete_store =
        Returned tt s'
      ∧ lbs s' !! 1 = Some lb' ∧ status lb' = "DELETED".
Proof.
  destruct (triggers_only_matter_when_active pending_delete_store 1
              (lb_in "PENDING-DELETE" 0) 15)
    as (Hsame & _ & _ & Hdel & _).
  - reflexivity.
  - vm_compute. discriminate.
  - split; [exact Hsame|].
    apply (Hdel {[ "lb_pending_delete" := 10 ]} 10).
    + reflexivity.
    + reflexivity.
    + reflexivity.
    + vm_compute. discriminate.
Defined.

(** * Beyond the claims: frames, failures and the remaining helpers *)

(** ** What a call leaves alone *)

(** A computation respects [R] when the store it leaves, returning or
    raising, is [R]-related to the one it started from. *)
Definition respects (R : relation Store) {A} (c : M A) : Prop :=
  ∀ s, R s (final_store (c s)).

(** A computation that only reads. *)
Definition read_only {A} (c : M A) : Prop :=
  ∀ s, final_store (c s) = s.

Section Respects.
Context (R : relation Store) `{!PreOrder R}.
Context {A B : Type}.

Lemma respects_ret (a : A) : respects R (ret a).
Proof. intros s. cbn. reflexivity. Qed.

Lemma respects_read_only (c : M A) : read_only c → respects R c.
Proof. intros Hc s. rewrite Hc. reflexivity. Qed.

Lemma respects_bind (c : M A) (k : A → M B) :
  respects R c → (∀ a, respects R (k a)) → respects R (bind c k).
Proof.
  intros Hc Hk s. rewrite bind_run. specialize (Hc s).
  destruct (c s) as [a s'|e s']; cbn [final_store] in *; [|done].
  etrans; [exact Hc|apply Hk].
Qed.
End Respects.

Lemma respects_when R `{!PreOrder R} b c :
  respects R c → respects R (when b c).
Proof. destruct b; [done|]. intros _. by apply respects_ret. Qed.

Lemma read_only_lbs_item lb_id : read_only (lbs_item lb_id).
Proof. intros s. rewrite lbs_item_run. by destruct (lbs s !! lb_id). Qed.

Lemma read_only_lbs_contains lb_id : read_only (lbs_contains lb_id).
Proof. by intros s. Qed.

Lemma read_only_get_status lb_id : read_only (get_status lb_id).
Proof. intros s. rewrite get_status_run. by destruct (lbs s !! lb_id). Qed.

Lemma read_only_get_updated_time lb_id : read_only (get_updated_time lb_id).
Proof. intros s. rewrite get_updated_time_run. by destruct (lbs s !! lb_id). Qed.

Lemma read_only_meta_contains lb_id key : read_only (meta_contains lb_id key).
Proof. intros s. rewrite meta_contains_run. by destruct (meta s !! lb_id). Qed.

Lemma read_only_get_meta lb_id key : read_only (get_meta lb_id key).
Proof.
  intros s. rewrite get_meta_run.
  destruct (meta s !! lb_id) as [m|]; [|done]. by destruct (m !! key).
Qed.

(** The store [s'] differs from [s] at most in the entries of [lb_id], and
    a record still under [lb_id] has the nodes it had. *)
Definition touches_only (lb_id : Z) : relation Store := λ s s',
  (∀ other, other ≠ lb_id →
     lbs s' !! other = lbs s !! other ∧ meta s' !! other = meta s !! other)
  ∧ (∀ lb', lbs s' !! lb_id = Some lb' →
       ∃ lb, lbs s !! lb_id = Some lb ∧ nodes lb' = nodes lb).

#[local] Instance touches_only_preorder lb_id : PreOrder (touches_only lb_id).
Proof.
  split.
  - intros s. split; [done|]. intros lb' Hlb'. by exists lb'.
  - intros s1 s2 s3 [H12 N12] [H23 N23]. split.
    + intros other Hne. destruct (H12 other Hne) as [E1 E2].
      destruct (H23 other Hne) as [E3 E4]. split; congruence.
    + intros lb3 Hlb3. destruct (N23 lb3 Hlb3) as (lb2 & Hlb2 & ->).
      by apply N12.
Qed.

Lemma touches_only_lbs_update lb_id f :
  (∀ lb, nodes (f lb) = nodes lb) →
  respects (touches_only lb_id) (lbs_update lb_id f).
Proof.
  intros Hf s. rewrite lbs_update_run.
  destruct (lbs s !! lb_id) as [lb|] eqn:Hlb; cbn [final_store];
    [|reflexivity].
  split; cbn [with_lbs lbs meta].
  - intros other Hne. by rewrite lookup_insert_ne.
  - rewrite lookup_insert_eq. intros lb' [= <-]. by exists lb.
Qed.

Lemma touches_only_lbs_delitem lb_id :
  respects (touches_only lb_id) (lbs_delitem lb_id).
Proof.
  intros s. rewrite lbs_delitem_run.
  destruct (lbs s !! lb_id) as [lb|] eqn:Hlb; cbn [final_store];
    [|reflexivity].
  split; cbn [with_lbs lbs meta].
  - intros other Hne. by rewrite lookup_delete_ne.
  - by rewrite lookup_delete_eq.
Qed.

Lemma touches_only_set_meta lb_id key v :
  respects (touches_only lb_id) (set_meta lb_id key v).
Proof.
  intros s. rewrite set_meta_run.
  destruct (meta s !! lb_id) as [m|] eqn:Hm; cbn [final_store];
    [|reflexivity].
  split; cbn [with_meta lbs meta].
  - intros other Hne. by rewrite lookup_insert_ne.
  - intros lb' Hlb'. by exists lb'.
Qed.

Lemma touches_only_set_status lb_id v :
  respects (touches_only lb_id) (set_status lb_id v).
Proof. by apply touches_only_lbs_update. Qed.

Lemma touches_only_set_updated_time lb_id v :
  respects (touches_only lb_id) (set_updated_time lb_id v).
Proof. by apply touches_only_lbs_update. Qed.

Create HintDb respects discriminated.
#[local] Hint Resolve read_only_lbs_item read_only_lbs_contains
  read_only_get_status read_only_get_updated_time read_only_meta_contains
  read_only_get_meta touches_only_lbs_delitem touches_only_set_meta
  touches_only_set_status touches_only_set_updated_time : respects.

(** Walks a handler body statement by statement. *)
Ltac respects :=
  repeat first
    [ solve [auto with respects]
    | solve [apply respects_read_only; [tc_solve|auto with respects]]
    | match goal with
      | |- respects _ (bind _ _) => apply respects_bind; [tc_solve| |intros ?]
      | |- respects _ (ret _) => apply respects_ret; tc_solve
      | |- respects _ (when _ _) => apply respects_when; [tc_solve|]
      | |- respects _ (if ?b then _ else _) => destruct b
      end ].

Lemma adv_touches_only lb_id set_state t :
  respects (touches_only lb_id) (_verify_and_update_lb_state lb_id set_state t).
Proof. unfold _verify_and_update_lb_state. respects. Qed.

Lemma del_touches_only lb_id t :
  respects (touches_only lb_id) (del_load_balancer lb_id t).
Proof.
  unfold del_load_balancer. respects; try apply adv_touches_only; respects.
Qed.

Lemma list_nodes_touches_only lb_id t :
  respects (touches_only lb_id) (list_nodes lb_id t).
Proof.
  unfold list_nodes. respects; try apply adv_touches_only; respects.
Qed.

(** X1: the state check, [del_load_balancer] and [list_nodes] called for one
    id leave the record and the metadata of every other id as they were,
    whether they return or raise. *)
Theorem handlers_frame lb_id set_state t s other :
  other ≠ lb_id →
  (lbs (final_store (_verify_and_update_lb_state lb_id set_state t s)) !! other
   = lbs s !! other
   ∧ meta (final_store (_verify_and_update_lb_state lb_id set_state t s))
       !! other = meta s !! other)
  ∧ (lbs (final_store (del_load_balancer lb_id t s)) !! other = lbs s !! other
     ∧ meta (final_store (del_load_balancer lb_id t s)) !! other
       = meta s !! other)
  ∧ (lbs (final_store (list_nodes lb_id t s)) !! other = lbs s !! other
     ∧ meta (final_store (list_nodes lb_id t s)) !! other = meta s !! other).
Proof.
  intros Hne. split_and!.
  - by apply (adv_touches_only lb_id set_state t s).
  - by apply (adv_touches_only lb_id set_state t s).
  - by apply (del_touches_only lb_id t s).
  - by apply (del_touches_only lb_id t s).
  - by apply (list_nodes_touches_only lb_id t s).
  - by apply (list_nodes_touches_only lb_id t s).
Qed.

(** Two load balancers: 1 is DELETED since second 0, 2 is ACTIVE. *)
Definition two_lb_store : Store :=
  {| lbs := {[ 1 := lb_in "DELETED" 0; 2 := lb_in "ACTIVE" 0 ]};
     meta := {[ 1 := ∅; 2 := ∅ ]} |}.

Lemma handlers_frame_witness :
  lbs (final_store (del_load_balancer 1 4000 two_lb_store)) !! 2
  = Some (lb_in "ACTIVE" 0).
Proof.
  destruct (handlers_frame 1 true 4000 two_lb_store 2) as (_ & [H _] & _).
  - vm_compute. discriminate.
  - rewrite H. reflexivity.
Defined.

(** X2: no handler creates a record or changes a node list: a record found
    under the id after the state check, [del_load_balancer] or [list_nodes]
    was there before, with the same nodes. *)
Theorem handlers_keep_nodes lb_id set_state t s s' lb' :
  s' = final_store (_verify_and_update_lb_state lb_id set_state t s)
  ∨ s' = final_store (del_load_balancer lb_id t s)
  ∨ s' = final_store (list_nodes lb_id t s) →
  lbs s' !! lb_id = Some lb' →
  ∃ lb, lbs s !! lb_id = Some lb ∧ nodes lb' = nodes lb.
Proof.
  intros [->|[->| ->]].
  - apply (adv_touches_only lb_id set_state t s).
  - apply (del_touches_only lb_id t s).
  - apply (list_nodes_touches_only lb_id t s).
Qed.

Lemma handlers_keep_nodes_witness :
  ∃ lb, lbs pending_delete_store !! 1 = Some lb
        ∧ nodes (with_updated_time (seconds_to_timestamp 15)
                   (with_status "DELETED" (lb_in "PENDING-DELETE" 0)))
          = nodes lb.
Proof.
  apply (handlers_keep_nodes 1 false 15 pending_delete_store
           (final_store (list_nodes 1 15 pending_delete_store))).
  - right. right. reflexivity.
  - vm_compute. reflexivity.
Defined.

(** ** When the state check raises *)

Section Failures.
Variables (s : Store) (lb_id : Z) (lb : LB) (t : Z).
Hypothesis Hlb : lbs s !! lb_id = Some lb.

Lemma adv_build_no_meta set_state :
  status lb = "BUILD" → meta s !! lb_id = None →
  _verify_and_update_lb_state lb_id set_state t s =
  Raised (KeyError (KInt lb_id)) s.
Proof. intros Hst Hm. unfold _verify_and_update_lb_state. by py_run. Qed.

Lemma adv_active_no_meta :
  status lb = "ACTIVE" → meta s !! lb_id = None →
  _verify_and_update_lb_state lb_id true t s =
  Raised (KeyError (KInt lb_id)) s.
Proof. intros Hst Hm. unfold _verify_and_update_lb_state. by py_run. Qed.

Lemma adv_pending_update_no_meta set_state :
  status lb = "PENDING-UPDATE" → meta s !! lb_id = None →
  _verify_and_update_lb_state lb_id set_state t s =
  Raised (KeyError (KInt lb_id)) s.
Proof. intros Hst Hm. unfold _verify_and_update_lb_state. by py_run. Qed.

Lemma adv_pending_delete_no_meta set_state :
  status lb = "PENDING-DELETE" → meta s !! lb_id = None →
  _verify_and_update_lb_state lb_id set_state t s =
  Raised (KeyError (KInt lb_id)) s.
Proof. intros Hst Hm. unfold _verify_and_update_lb_state. by py_run. Qed.

Lemma adv_pending_delete_no_dwell m set_state :
  status lb = "PENDING-DELETE" →
  meta s !! lb_id = Some m → m !! "lb_pending_delete" = None →
  _verify_and_update_lb_state lb_id set_state t s =
  Raised (KeyError (KStr "lb_pending_delete")) s.
Proof. intros Hst Hm Hv. unfold _verify_and_update_lb_state. by py_run. Qed.
End Failures.

(** The keys the state check indexes without a test, by status: the metadata
    dict for BUILD, PENDING-UPDATE, PENDING-DELETE and (with triggers) ACTIVE,
    and the dwell entry for BUILD and PENDING-DELETE. *)
Definition adv_ready (s : Store) (lb_id : Z) (set_state : bool) : Prop :=
  ∃ lb, lbs s !! lb_id = Some lb
    ∧ (status lb = "BUILD" →
       ∃ m, meta s !! lb_id = Some m ∧ is_Some (m !! "lb_building"))
    ∧ (status lb = "ACTIVE" → set_state = true → is_Some (meta s !! lb_id))
    ∧ (status lb = "PENDING-UPDATE" → is_Some (meta s !! lb_id))
    ∧ (status lb = "PENDING-DELETE" →
       ∃ m, meta s !! lb_id = Some m ∧ is_Some (m !! "lb_pending_delete")).

(** Every way the state check can end, for a record that is there. *)
Inductive adv_end (s : Store) (lb_id : Z) : outcome unit → Prop :=
  | adv_end_returned s' : adv_end s lb_id (Returned tt s')
  | adv_end_no_meta : adv_end s lb_id (Raised (KeyError (KInt lb_id)) s)
  | adv_end_no_dwell key :
      key = "lb_building" ∨ key = "lb_pending_delete" →
      adv_end s lb_id (Raised (KeyError (KStr key)) s).

Lemma adv_ends s lb_id set_state t :
  adv_end s lb_id (_verify_and_update_lb_state lb_id set_state t s).
Proof.
  destruct (lbs s !! lb_id) as [lb|] eqn:Hlb.
  2: { rewrite adv_absent by done. constructor. }
  destruct (decide (status lb = "BUILD")) as [Hst|Hn1].
  { destruct (meta s !! lb_id) as [m|] eqn:Hm.
    - destruct (m !! "lb_building") as [v|] eqn:Hv.
      + rewrite (adv_build s lb_id lb t Hlb m v set_state Hst Hm Hv).
        constructor.
      + rewrite (adv_build_no_dwell s lb_id lb t Hlb m set_state Hst Hm Hv).
        constructor. by left.
    - rewrite (adv_build_no_meta s lb_id lb t Hlb set_state Hst Hm).
      constructor. }
  destruct (decide (status lb = "ACTIVE")) as [Hst|Hn2].
  { destruct set_state.
    - destruct (meta s !! lb_id) as [m|] eqn:Hm.
      + rewrite (adv_active_triggered s lb_id lb t Hlb m Hst Hm). constructor.
      + rewrite (adv_active_no_meta s lb_id lb t Hlb Hst Hm). constructor.
    - rewrite (adv_active_read s lb_id lb t Hlb Hst). constructor. }
  destruct (decide (status lb = "PENDING-UPDATE")) as [Hst|Hn3].
  { destruct (meta s !! lb_id) as [m|] eqn:Hm.
    - rewrite (adv_pending_update s lb_id lb t Hlb m set_state Hst Hm).
      constructor.
    - rewrite (adv_pending_update_no_meta s lb_id lb t Hlb set_state Hst Hm).
      constructor. }
  destruct (decide (status lb = "PENDING-DELETE")) as [Hst|Hn4].
  { destruct (meta s !! lb_id) as [m|] eqn:Hm.
    - destruct (m !! "lb_pending_delete") as [v|] eqn:Hv.
      + rewrite (adv_pending_delete s lb_id lb t Hlb m v set_state Hst Hm Hv).
        constructor.
      + rewrite (adv_pending_delete_no_dwell s lb_id lb t Hlb m set_state
                   Hst Hm Hv).
        constructor. by right.
    - rewrite (adv_pending_delete_no_meta s lb_id lb t Hlb set_state Hst Hm).
      constructor. }
  destruct (decide (status lb = "DELETED")) as [Hst|Hn5].
  { rewrite (adv_deleted s lb_id lb t Hlb set_state Hst). constructor. }
  rewrite (adv_other s lb_id lb t Hlb set_state); [constructor|].
  rewrite !not_elem_of_cons. split_and!; try done. apply not_elem_of_nil.
Qed.

(** X3: the state check fails cleanly.  When it raises, the exception is a
    [KeyError] for the id or for one of the two dwell keys, and the store is
    exactly as it was before the call: nothing is half written. *)
Theorem state_check_raise_atomic s lb_id set_state t e s' :
  _verify_and_update_lb_state lb_id set_state t s = Raised e s' →
  s' = s
  ∧ (e = KeyError (KInt lb_id)
     ∨ e = KeyError (KStr "lb_building")
     ∨ e = KeyError (KStr "lb_pending_delete")).
Proof.
  intros Hrun. pose proof (adv_ends s lb_id set_state t) as Hend.
  rewrite Hrun in Hend. inversion Hend; subst.
  - split; [done|]. by left.
  - split; [done|].
    match goal with H : _ = "lb_building" ∨ _ |- _ =>
      destruct H as [->| ->]; auto end.
Qed.

Lemma state_check_raise_atomic_witness :
  one_lb 1 "BUILD" 0 ∅ = one_lb 1 "BUILD" 0 ∅
  ∧ (KeyError (KStr "lb_building") = KeyError (KInt 1)
     ∨ KeyError (KStr "lb_building") = KeyError (KStr "lb_building")
     ∨ KeyError (KStr "lb_building") = KeyError (KStr "lb_pending_delete")).
Proof.
  apply (state_check_raise_atomic (one_lb 1 "BUILD" 0 ∅) 1 false 7).
  reflexivity.
Defined.

(** X4: the state check returns exactly when the record is in the store and
    the metadata its status makes it index is there: the metadata dict for
    BUILD, PENDING-UPDATE, PENDING-DELETE and, with triggers enabled, ACTIVE;
    the [lb_building] entry for BUILD and the [lb_pending_delete] entry for
    PENDING-DELETE.  DELETED, ERROR and any other status need no metadata. *)
Theorem state_check_returns_iff s lb_id set_state t :
  (∃ s', _verify_and_update_lb_state lb_id set_state t s = Returned tt s')
  ↔ adv_ready s lb_id set_state.
Proof.
  split.
  - intros [s' Hrun].
    destruct (lbs s !! lb_id) as [lb|] eqn:Hlb.
    2: { by rewrite adv_absent in Hrun. }
    exists lb. split; [done|]. split_and!.
    + intros Hst. destruct (meta s !! lb_id) as [m|] eqn:Hm.
      * exists m. split; [done|].
        destruct (m !! "lb_building") as [v|] eqn:Hv; [by eexists|].
        by rewrite (adv_build_no_dwell s lb_id lb t Hlb m set_state Hst Hm Hv)
          in Hrun.
      * by rewrite (adv_build_no_meta s lb_id lb t Hlb set_state Hst Hm)
          in Hrun.
    + intros Hst ->. destruct (meta s !! lb_id) as [m|] eqn:Hm; [by eexists|].
      by rewrite (adv_active_no_meta s lb_id lb t Hlb Hst Hm) in Hrun.
    + intros Hst. destruct (meta s !! lb_id) as [m|] eqn:Hm; [by eexists|].
      by rewrite (adv_pending_update_no_meta s lb_id lb t Hlb set_state Hst Hm)
        in Hrun.
    + intros Hst. destruct (meta s !! lb_id) as [m|] eqn:Hm.
      * exists m. split; [done|].
        destruct (m !! "lb_pending_delete") as [v|] eqn:Hv; [by eexists|].
        by rewrite (adv_pending_delete_no_dwell s lb_id lb t Hlb m set_state
                      Hst Hm Hv) in Hrun.
      * by rewrite (adv_pending_delete_no_meta s lb_id lb t Hlb set_state
                      Hst Hm) in Hrun.
  - intros (lb & Hlb & Hbuild & Hactive & Hupd & Hdel).
    destruct (decide (status lb = "BUILD")) as [Hst|Hn1].
    { destruct (Hbuild Hst) as (m & Hm & v & Hv). eexists.
      apply (adv_build s lb_id lb t Hlb m v set_state Hst Hm Hv). }
    destruct (decide (status lb = "ACTIVE")) as [Hst|Hn2].
    { destruct set_state.
      - destruct (Hactive Hst eq_refl) as [m Hm]. eexists.
        apply (adv_active_triggered s lb_id lb t Hlb m Hst Hm).
      - eexists. apply (adv_active_read s lb_id lb t Hlb Hst). }
    destruct (decide (status lb = "PENDING-UPDATE")) as [Hst|Hn3].
    { destruct (Hupd Hst) as [m Hm]. eexists.
      apply (adv_pending_update s lb_id lb t Hlb m set_state Hst Hm). }
    destruct (decide (status lb = "PENDING-DELETE")) as [Hst|Hn4].
    { destruct (Hdel Hst) as (m & Hm & v & Hv). eexists.
      apply (adv_pending_delete s lb_id lb t Hlb m v set_state Hst Hm Hv). }
    destruct (decide (status lb = "DELETED")) as [Hst|Hn5].
    { eexists. apply (adv_deleted s lb_id lb t Hlb set_state Hst). }
    eexists. apply (adv_other s lb_id lb t Hlb set_state).
    rewrite !not_elem_of_cons. split_and!; try done. apply not_elem_of_nil.
Qed.

(** ** The transitions the state check makes *)

(** The moves of the elif chain: a status stays, or takes one of the edges
    below.  The sentinel DELETING-NOW is no target: the record that would
    carry it is deleted in the same call. *)
Definition transition (a b : string) : Prop :=
  a = b
  ∨ (a = "BUILD" ∧ b = "ACTIVE")
  ∨ (a = "ACTIVE" ∧ b ∈ ["PENDING-UPDATE"; "PENDING-DELETE"; "ERROR"])
  ∨ (a = "PENDING-UPDATE" ∧ b = "ACTIVE")
  ∨ (a = "PENDING-DELETE" ∧ b = "DELETED").

Lemma active_trigger_status_cases m :
  active_trigger_status m ∈
    ["ACTIVE"; "PENDING-UPDATE"; "PENDING-DELETE"; "ERROR"].
Proof.
  unfold active_trigger_status. repeat case_bool_decide; set_solver.
Qed.

Lemma adv_moves s lb_id lb set_state t s' :
  lbs s !! lb_id = Some lb →
  _verify_and_update_lb_state lb_id set_state t s = Returned tt s' →
  match lbs s' !! lb_id with
  | Some lb' =>
      transition (status lb) (status lb')
      ∧ (status lb ≠ "DELETING-NOW" → status lb' ≠ "DELETING-NOW")
  | None =>
      status lb = "DELETED" ∧ 3600 ≤ elapsed lb t
      ∧ s' = with_lbs (delete lb_id) s
  end.
Proof.
  intros Hlb Hrun.
  assert (∀ b, transition (status lb) b → b ≠ "DELETING-NOW" ∨ b = status lb →
            transition (status lb) b
            ∧ (status lb ≠ "DELETING-NOW" → b ≠ "DELETING-NOW")) as Hok.
  { intros b Htr [Hb| ->]; split; try done. }
  destruct (decide (status lb = "BUILD")) as [Hst|Hn1].
  { destruct (meta s !! lb_id) as [m|] eqn:Hm.
    2: { by rewrite (adv_build_no_meta s lb_id lb t Hlb set_state Hst Hm)
           in Hrun. }
    destruct (m !! "lb_building") as [v|] eqn:Hv.
    2: { by rewrite (adv_build_no_dwell s lb_id lb t Hlb m set_state Hst Hm Hv)
           in Hrun. }
    rewrite (adv_build s lb_id lb t Hlb m v set_state Hst Hm Hv) in Hrun.
    injection Hrun as <-. cbn [with_lbs with_meta lbs].
    rewrite lookup_insert_eq. cbn [status with_status]. apply Hok.
    - rewrite Hst. unfold transition. case_decide; auto.
    - left. by case_decide. }
  destruct (decide (status lb = "ACTIVE")) as [Hst|Hn2].
  { destruct set_state.
    - destruct (meta s !! lb_id) as [m|] eqn:Hm.
      2: { by rewrite (adv_active_no_meta s lb_id lb t Hlb Hst Hm) in Hrun. }
      rewrite (adv_active_triggered s lb_id lb t Hlb m Hst Hm) in Hrun.
      injection Hrun as <-. cbn [with_lbs lbs]. rewrite lookup_insert_eq.
      cbn [status with_status with_updated_time].
      pose proof (active_trigger_status_cases m) as Hcases.
      apply Hok.
      + rewrite Hst. unfold transition.
        rewrite !elem_of_cons in Hcases. rewrite !elem_of_cons.
        destruct Hcases as [->|[->|[->|[->|Hnil]]]];
          try (by apply elem_of_nil in Hnil); auto 10.
      + left. rewrite !elem_of_cons in Hcases.
        destruct Hcases as [->|[->|[->|[->|Hnil]]]];
          try (by apply elem_of_nil in Hnil); done.
    - rewrite (adv_active_read s lb_id lb t Hlb Hst) in Hrun.
      injection Hrun as <-. rewrite Hlb. apply Hok; [by left|by right]. }
  destruct (decide (status lb = "PENDING-UPDATE")) as [Hst|Hn3].
  { destruct (meta s !! lb_id) as [m|] eqn:Hm.
    2: { by rewrite (adv_pending_update_no_meta s lb_id lb t Hlb set_state
                       Hst Hm) in Hrun. }
    rewrite (adv_pending_update s lb_id lb t Hlb m set_state Hst Hm) in Hrun.
    injection Hrun as <-.
    destruct (m !! "lb_pending_update") as [d|].
    - cbn [with_lbs lbs]. rewrite lookup_insert_eq.
      cbn [status with_status]. apply Hok.
      + rewrite Hst. unfold transition. case_decide; auto 10.
      + left. by case_decide.
    - rewrite Hlb. apply Hok; [by left|by right]. }
  destruct (decide (status lb = "PENDING-DELETE")) as [Hst|Hn4].
  { destruct (meta s !! lb_id) as [m|] eqn:Hm.
    2: { by rewrite (adv_pending_delete_no_meta s lb_id lb t Hlb set_state
                       Hst Hm) in Hrun. }
    destruct (m !! "lb_pending_delete") as [v|] eqn:Hv.
    2: { by rewrite (adv_pending_delete_no_dwell s lb_id lb t Hlb m set_state
                       Hst Hm Hv) in Hrun. }
    rewrite (adv_pending_delete s lb_id lb t Hlb m v set_state Hst Hm Hv)
      in Hrun.
    injection Hrun as <-. cbn [with_lbs with_meta lbs].
    rewrite lookup_insert_eq. cbn [status with_status with_updated_time].
    apply Hok.
    - rewrite Hst. unfold transition. case_decide; auto 10.
    - left. by case_decide. }
  destruct (decide (status lb = "DELETED")) as [Hst|Hn5].
  { rewrite (adv_deleted s lb_id lb t Hlb set_state Hst) in Hrun.
    injection Hrun as <-. case_decide.
    - cbn [with_lbs lbs]. by rewrite lookup_delete_eq.
    - rewrite Hlb. apply Hok; [by left|by right]. }
  rewrite (adv_other s lb_id lb t Hlb set_state) in Hrun.
  - injection Hrun as <-. rewrite Hlb. apply Hok; [by left|by right].
  - rewrite !not_elem_of_cons. split_and!; try done. apply not_elem_of_nil.
Qed.


(** X5: the state check only moves a status along the lifecycle.  After a
    call that returns, the record is either still there, with its old status
    or one step further (BUILD to ACTIVE, ACTIVE to PENDING-UPDATE,
    PENDING-DELETE or ERROR, PENDING-UPDATE to ACTIVE, PENDING-DELETE to
    DELETED), or it is gone and was DELETED before.  DELETING-NOW is never
    left in the store. *)
Theorem state_check_transitions s lb_id lb set_state t s' :
  lbs s !! lb_id = Some lb →
  _verify_and_update_lb_state lb_id set_state t s = Returned tt s' →
  match lbs s' !! lb_id with
  | Some lb' =>
      transition (status lb) (status lb')
      ∧ (status lb ≠ "DELETING-NOW" → status lb' ≠ "DELETING-NOW")
  | None => status lb = "DELETED" ∧ 3600 ≤ elapsed lb t
  end.
Proof.
  intros Hlb Hrun. pose proof (adv_moves s lb_id lb set_state t s' Hlb Hrun).
  destruct (lbs s' !! lb_id); [done|]. tauto.
Qed.

Lemma state_check_transitions_witness :
  transition "PENDING-DELETE" "DELETED"
  ∧ ("PENDING-DELETE" ≠ "DELETING-NOW" → "DELETED" ≠ "DELETING-NOW").
Proof.
  apply (state_check_transitions pending_delete_store 1
           (lb_in "PENDING-DELETE" 0) false 15
           (final_store
              (_verify_and_update_lb_state 1 false 15 pending_delete_store)));
    reflexivity.
Defined.

(** ** Polling *)

(** The state check called once per time of [times], in order, as repeated
    requests for one load balancer make it. *)
Fixpoint observe (lb_id : Z) (set_state : bool) (times : list Z) : M unit :=
  match times with
  | [] => ret tt
  | t :: times' =>
      _verify_and_update_lb_state lb_id set_state t;;
      observe lb_id set_state times'
  end.

(** Every time of [times] comes less than [d] seconds after the one before
    it, the first one after [t0]. *)
Fixpoint gaps_below (d t0 : Z) (times : list Z) : Prop :=
  match times with
  | [] => True
  | t :: times' => t - t0 < d ∧ gaps_below d t times'
  end.

Lemma or_int_or_int v d : d ≠ 0 → or_int (or_int v d) d = or_int v d.
Proof. intros Hd. unfold or_int. by repeat case_decide. Qed.

Lemma observe_cons lb_id set_state t times s s1 :
  _verify_and_update_lb_state lb_id set_state t s = Returned tt s1 →
  observe lb_id set_state (t :: times) s = observe lb_id set_state times s1.
Proof. intros H. cbn [observe]. by rewrite bind_run, H. Qed.

(** X6: a PENDING-DELETE load balancer that is checked more often than its
    dwell never becomes DELETED: every check restarts the dwell by writing
    the current time as update time.  For checks that each come less than
    the dwell ([lb_pending_delete], 10 when zero) after the previous one, the
    status is PENDING-DELETE after all of them. *)
Theorem pending_delete_polling_keeps_pending s lb_id lb m v set_state times :
  lbs s !! lb_id = Some lb → status lb = "PENDING-DELETE" →
  meta s !! lb_id = Some m → m !! "lb_pending_delete" = Some v →
  gaps_below (or_int v 10) (timestamp_to_seconds (updated_time lb)) times →
  ∃ s' lb',
    observe lb_id set_state times s = Returned tt s'
    ∧ lbs s' !! lb_id = Some lb'
    ∧ status lb' = "PENDING-DELETE".
Proof.
  revert s lb m v.
  induction times as [|t times IH]; intros s lb m v Hlb Hst Hm Hv Hgaps.
  - by exists s, lb.
  - destruct Hgaps as [Hgap Hgaps].
    pose proof (adv_pending_delete s lb_id lb t Hlb m v set_state Hst Hm Hv)
      as Hrun.
    rewrite decide_False in Hrun by (unfold elapsed; lia).
    rewrite (observe_cons _ _ _ _ _ _ Hrun).
    apply (IH _ (with_updated_time (seconds_to_timestamp t)
                   (with_status "PENDING-DELETE" lb))
             (<["lb_pending_delete" := or_int v 10]> m) (or_int v 10)).
    + cbn [with_lbs with_meta lbs]. apply lookup_insert_eq.
    + done.
    + cbn [with_lbs with_meta meta]. apply lookup_insert_eq.
    + apply lookup_insert_eq.
    + by rewrite or_int_or_int.
Qed.

Lemma pending_delete_polling_keeps_pending_witness :
  ∃ s' lb',
    observe 1 false [8; 16; 24; 32] pending_delete_store = Returned tt s'
    ∧ lbs s' !! 1 = Some lb'
    ∧ status lb' = "PENDING-DELETE".
Proof.
  apply (pending_delete_polling_keeps_pending pending_delete_store 1
           (lb_in "PENDING-DELETE" 0) {[ "lb_pending_delete" := 10 ]} 10).
  - reflexivity.
  - reflexivity.
  - reflexivity.
  - reflexivity.
  - vm_compute. repeat split; discriminate.
Defined.

Lemma observe_active_read s lb_id lb times :
  lbs s !! lb_id = Some lb → status lb = "ACTIVE" →
  observe lb_id false times s = Returned tt s.
Proof.
  intros Hlb Hst. induction times as [|t times IH]; [done|].
  by rewrite (observe_cons _ _ _ _ _ _ (adv_active_read s lb_id lb t Hlb Hst)).
Qed.

(** X7: reads do not postpone the end of BUILD.  After any sequence of state
    checks with triggers disabled, the load balancer is ACTIVE exactly when
    one of the checks came at least the dwell ([lb_building], 10 when zero)
    after the update time, and BUILD otherwise; the update time is the one
    it started with. *)
Theorem build_polling s lb_id lb m v times :
  lbs s !! lb_id = Some lb → status lb = "BUILD" →
  meta s !! lb_id = Some m → m !! "lb_building" = Some v →
  ∃ s' lb',
    observe lb_id false times s = Returned tt s'
    ∧ lbs s' !! lb_id = Some lb'
    ∧ updated_time lb' = updated_time lb
    ∧ status lb' =
      if existsb (λ t, bool_decide (or_int v 10 ≤ elapsed lb t)) times
      then "ACTIVE" else "BUILD".
Proof.
  revert s lb m v.
  induction times as [|t times IH]; intros s lb m v Hlb Hst Hm Hv.
  - by exists s, lb.
  - pose proof (adv_build s lb_id lb t Hlb m v false Hst Hm Hv) as Hrun.
    rewrite (observe_cons _ _ _ _ _ _ Hrun). cbn [existsb].
    case_decide as Ht.
    + rewrite bool_decide_eq_true_2 by done. cbn [orb].
      eexists _, _. split.
      { apply (observe_active_read _ lb_id (with_status "ACTIVE" lb)).
        - cbn [with_lbs with_meta lbs]. apply lookup_insert_eq.
        - done. }
      cbn [with_lbs with_meta lbs]. by rewrite lookup_insert_eq.
    + rewrite bool_decide_eq_false_2 by done. cbn [orb].
      match type of Hrun with
      | _ = Returned _ ?s1 =>
          destruct (IH s1 (with_status "BUILD" lb)
                      (<["lb_building" := or_int v 10]> m) (or_int v 10))
            as (s' & lb' & Hobs & Hlb' & Htime & Hst')
      end.
      * cbn [with_lbs with_meta lbs]. apply lookup_insert_eq.
      * done.
      * cbn [with_lbs with_meta meta]. apply lookup_insert_eq.
      * apply lookup_insert_eq.
      * exists s', lb'. split_and!; try done.
        rewrite Hst', or_int_or_int by done. done.
Qed.

Lemma build_polling_witness :
  ∃ s' lb',
    observe 1 false [3; 6; 9; 12; 4]
      (one_lb 1 "BUILD" 0 {[ "lb_building" := 0 ]}) = Returned tt s'
    ∧ lbs s' !! 1 = Some lb'
    ∧ status lb' = "ACTIVE".
Proof.
  destruct (build_polling (one_lb 1 "BUILD" 0 {[ "lb_building" := 0 ]}) 1
              (lb_in "BUILD" 0) {[ "lb_building" := 0 ]} 0 [3; 6; 9; 12; 4])
    as (s' & lb' & Hobs & Hlb' & _ & Hst').
  - reflexivity.
  - reflexivity.
  - reflexivity.
  - reflexivity.
  - exists s', lb'. split_and!; [exact Hobs | exact Hlb' | exact Hst'].
Defined.

(** X8: the 3600 seconds of a DELETED load balancer count from the check
    that found the PENDING-DELETE dwell over, not from the end of the dwell:
    that check stamps the record with its own time [t].  A later check at
    [t'] keeps the record, DELETED, while [t' - t < 3600] and removes it from
    [t' - t = 3600] on. *)
Theorem deleted_grace_counts_from_check s lb_id lb m v set_state t t' :
  lbs s !! lb_id = Some lb → status lb = "PENDING-DELETE" →
  meta s !! lb_id = Some m → m !! "lb_pending_delete" = Some v →
  or_int v 10 ≤ elapsed lb t →
  ∃ s1 lb1,
    _verify_and_update_lb_state lb_id set_state t s = Returned tt s1
    ∧ lbs s1 !! lb_id = Some lb1
    ∧ status lb1 = "DELETED"
    ∧ updated_time lb1 = seconds_to_timestamp t
    ∧ (t' - t < 3600 →
       _verify_and_update_lb_state lb_id set_state t' s1 = Returned tt s1)
    ∧ (3600 ≤ t' - t →
       ∃ s2, _verify_and_update_lb_state lb_id set_state t' s1 = Returned tt s2
             ∧ lbs s2 !! lb_id = None).
Proof.
  intros Hlb Hst Hm Hv Ht.
  pose proof (adv_pending_delete s lb_id lb t Hlb m v set_state Hst Hm Hv)
    as Hrun.
  rewrite decide_True in Hrun by done.
  eexists _, _. split; [exact Hrun|].
  set (lb1 := with_updated_time (seconds_to_timestamp t)
                (with_status "DELETED" lb)).
  set (s1 := with_lbs _ _).
  assert (lbs s1 !! lb_id = Some lb1) as Hlb1.
  { subst s1. cbn [with_lbs with_meta lbs]. apply lookup_insert_eq. }
  assert (elapsed lb1 t' = t' - t) as He by done.
  split_and!; try done.
  - intros Hin.
    rewrite (adv_deleted s1 lb_id lb1 t' Hlb1 set_state eq_refl).
    by rewrite decide_False by lia.
  - intros Hout. eexists. split.
    { apply (adv_deleted s1 lb_id lb1 t' Hlb1 set_state eq_refl). }
    rewrite decide_True by lia. apply lookup_delete_eq.
Qed.

Lemma deleted_grace_counts_from_check_witness :
  ∃ s1 lb1,
    _verify_and_update_lb_state 1 false 500 pending_delete_store
    = Returned tt s1
    ∧ lbs s1 !! 1 = Some lb1
    ∧ status lb1 = "DELETED"
    ∧ _verify_and_update_lb_state 1 false 3700 s1 = Returned tt s1.
Proof.
  destruct (deleted_grace_counts_from_check pending_delete_store 1
              (lb_in "PENDING-DELETE" 0) {[ "lb_pending_delete" := 10 ]} 10
              false 500 3700)
    as (s1 & lb1 & Hrun & Hlb1 & Hst1 & _ & Hin & _).
  - reflexivity.
  - reflexivity.
  - reflexivity.
  - reflexivity.
  - vm_compute. discriminate.
  - exists s1, lb1. split_and!; [exact Hrun | exact Hlb1 | exact Hst1 |].
    apply Hin. vm_compute. reflexivity.
Defined.

(** ** Every way a delete can end *)

(** Splits on whether [lb] has status [v], without touching the goal. *)
Ltac status_is lb v H :=
  assert (status lb = v ∨ status lb ≠ v) as [H|H]
    by (destruct (decide (status lb = v)); auto).

(** [del_load_balancer] on a record that is not PENDING-DELETE, read off the
    store its first state check leaves. *)
Lemma del_after_adv s lb_id lb t :
  lbs s !! lb_id = Some lb → status lb ≠ "PENDING-DELETE" →
  del_load_balancer lb_id t s =
  match _verify_and_update_lb_state lb_id true t s with
  | Raised e s1 => Raised e s1
  | Returned _ s1 =>
      match lbs s1 !! lb_id with
      | None => Raised (KeyError (KInt lb_id)) s1
      | Some lb1 =>
          if bool_decide (status lb1 ∈ ["ACTIVE"; "ERROR"; "PENDING-UPDATE"])
          then Returned (EMPTY_RESPONSE, 202) (with_lbs (delete lb_id) s1)
          else if decide (status lb1 = "PENDING-DELETE")
          then Returned (EMPTY_RESPONSE, 202) s1
          else if decide (status lb1 = "DELETED")
          then match _verify_and_update_lb_state lb_id true t s1 with
               | Returned _ s2 =>
                   Returned (invalid_resource (not_found_msg lb_id) 400, 400) s2
               | Raised e s2 => Raised e s2
               end
          else Returned (not_found_response "loadbalancer", 404) s1
      end
  end.
Proof.
  intros Hlb Hst. unfold del_load_balancer. py_run.
  destruct (_verify_and_update_lb_state lb_id true t s) as [[] s1|e s1];
    [|done].
  destruct (lbs s1 !! lb_id) as [lb1|] eqn:Hlb1; py_run; [|done].
  status_is lb1 "ACTIVE" H1; [rewrite H1; by py_run|].
  status_is lb1 "ERROR" H2; [rewrite H2; by py_run|].
  status_is lb1 "PENDING-UPDATE" H3; [rewrite H3; by py_run|].
  rewrite (bool_decide_eq_false_2 (status lb1 ∈ _))
    by (rewrite !elem_of_cons, elem_of_nil; tauto).
  py_run.
  status_is lb1 "PENDING-DELETE" H4; [rewrite H4; by py_run|].
  py_run.
  status_is lb1 "DELETED" H5; [rewrite H5|]; py_run; [|done].
  by destruct (_verify_and_update_lb_state lb_id true t s1) as [[] s2|e s2].
Qed.

Lemma adv_deleted_always_returns s lb_id lb set_state t :
  lbs s !! lb_id = Some lb → status lb = "DELETED" →
  ∃ s', _verify_and_update_lb_state lb_id set_state t s = Returned tt s'.
Proof. intros Hlb Hst. eexists. by apply adv_deleted. Qed.

(** The three shapes of an answer of [del_load_balancer]. *)
Definition del_answer (r : response) : Prop :=
  r = (EMPTY_RESPONSE, 202)
  ∨ (∃ msg, r = (invalid_resource msg 400, 400))
  ∨ r = (not_found_response "loadbalancer", 404).

Lemma del_returned_cases s lb_id t r s' :
  del_load_balancer lb_id t s = Returned r s' →
  del_answer r
  ∧ (r.2 = 202 →
     lbs s' !! lb_id = None
     ∨ ∃ lb', lbs s' !! lb_id = Some lb' ∧ status lb' = "PENDING-DELETE").
Proof.
  intros Hrun. unfold del_answer.
  destruct (lbs s !! lb_id) as [lb|] eqn:Hlb.
  2: { rewrite del_absent in Hrun by done. injection Hrun as <- <-.
       split; [auto|]. intros [=]. }
  status_is lb "PENDING-DELETE" Hpd.
  { rewrite (del_pending_delete s lb_id lb t Hlb Hpd) in Hrun.
    injection Hrun as <- <-. split; [eauto|]. intros [=]. }
  rewrite (del_after_adv s lb_id lb t Hlb Hpd) in Hrun.
  destruct (_verify_and_update_lb_state lb_id true t s) as [[] s1|e s1];
    [|done].
  destruct (lbs s1 !! lb_id) as [lb1|] eqn:Hlb1; [|done].
  case_bool_decide.
  { injection Hrun as <- <-. split; [auto|]. intros _. left.
    cbn [with_lbs lbs]. apply lookup_delete_eq. }
  case_decide as H4.
  { injection Hrun as <- <-. split; [auto|]. intros _. right. eauto. }
  case_decide as H5.
  - destruct (_verify_and_update_lb_state lb_id true t s1) as [[] s2|e s2];
      [|done].
    injection Hrun as <- <-. split; [eauto|]. intros [=].
  - injection Hrun as <- <-. split; [auto|]. intros [=].
Qed.

(** X9: whenever [del_load_balancer] returns, its answer is one of three:
    the empty body with 202, an invalid-resource body with 400, or the
    not-found body with 404; body and status code always agree. *)
Theorem del_load_balancer_answers s lb_id t b c s' :
  del_load_balancer lb_id t s = Returned (b, c) s' →
  (b = EMPTY_RESPONSE ∧ c = 202)
  ∨ (∃ msg, b = invalid_resource msg 400 ∧ c = 400)
  ∨ (b = not_found_response "loadbalancer" ∧ c = 404).
Proof.
  intros Hrun. destruct (del_returned_cases s lb_id t (b, c) s' Hrun) as [H _].
  destruct H as [[= -> ->]|[[msg [= -> ->]]|[= -> ->]]]; eauto 6.
Qed.

Lemma del_load_balancer_answers_witness :
  (invalid_resource (immutable_msg 1) 400 = EMPTY_RESPONSE ∧ 400 = 202)
  ∨ (∃ msg, invalid_resource (immutable_msg 1) 400 = invalid_resource msg 400
            ∧ 400 = 400)
  ∨ (invalid_resource (immutable_msg 1) 400
     = not_found_response "loadbalancer" ∧ 400 = 404).
Proof.
  apply (del_load_balancer_answers pending_delete_store 1 5 _ _
           pending_delete_store).
  reflexivity.
Defined.

(** X10: a delete is accepted at most once.  After a [del_load_balancer]
    call that answered 202, every further call on the same id answers 404
    (the record is gone) or 400 (the record is PENDING-DELETE), never 202,
    and changes nothing. *)
Theorem del_load_balancer_accepted_once s lb_id t b s' t' :
  del_load_balancer lb_id t s = Returned (b, 202) s' →
  ∃ b' c',
    del_load_balancer lb_id t' s' = Returned (b', c') s'
    ∧ (c' = 400 ∨ c' = 404).
Proof.
  intros Hrun.
  destruct (del_returned_cases s lb_id t (b, 202) s' Hrun) as [_ H].
  destruct (H eq_refl) as [Hgone|(lb' & Hlb' & Hst')].
  - eexists _, _. split; [by apply del_absent|]. by right.
  - eexists _, _. split; [by apply (del_pending_delete s' lb_id lb')|].
    by left.
Qed.

Lemma del_load_balancer_accepted_once_witness :
  ∃ b' c',
    del_load_balancer 1 9
      (one_lb 1 "PENDING-DELETE" 5 {[ "lb_pending_delete" := 10 ]})
    = Returned (b', c')
        (one_lb 1 "PENDING-DELETE" 5 {[ "lb_pending_delete" := 10 ]})
    ∧ (c' = 400 ∨ c' = 404).
Proof.
  apply (del_load_balancer_accepted_once active_delete_store 1 5
           EMPTY_RESPONSE).
  reflexivity.
Defined.

(** X11: deleting a load balancer that is still building is answered 404
    although the record exists, and the record stays, still BUILD; once the
    dwell ([lb_building], 10 when zero) is over, the same call finds it
    ACTIVE, answers 202 and removes it. *)
Theorem del_load_balancer_build s lb_id lb m v t :
  lbs s !! lb_id = Some lb → status lb = "BUILD" →
  meta s !! lb_id = Some m → m !! "lb_building" = Some v →
  (elapsed lb t < or_int v 10 →
   ∃ s', del_load_balancer lb_id t s =
           Returned (not_found_response "loadbalancer", 404) s'
         ∧ lbs s' !! lb_id = Some lb)
  ∧ (or_int v 10 ≤ elapsed lb t →
     ∃ s', del_load_balancer lb_id t s = Returned (EMPTY_RESPONSE, 202) s'
           ∧ lbs s' !! lb_id = None).
Proof.
  intros Hlb Hst Hm Hv.
  assert (status lb ≠ "PENDING-DELETE") as Hpd by by rewrite Hst.
  rewrite (del_after_adv s lb_id lb t Hlb Hpd).
  rewrite (adv_build s lb_id lb t Hlb m v true Hst Hm Hv).
  cbn [with_lbs with_meta lbs]. rewrite lookup_insert_eq. split; intros Ht.
  - rewrite decide_False by lia. cbn [status with_status].
    rewrite bool_decide_eq_false_2
      by (rewrite !elem_of_cons, elem_of_nil; intuition discriminate).
    rewrite !decide_False by done. eexists. split; [done|].
    cbn [with_lbs with_meta lbs]. rewrite lookup_insert_eq.
    by rewrite <- Hst, with_status_id.
  - rewrite decide_True by lia. cbn [status with_status].
    rewrite bool_decide_eq_true_2 by set_solver.
    eexists. split; [done|]. cbn [with_lbs lbs]. apply lookup_delete_eq.
Qed.

Lemma del_load_balancer_build_witness :
  ∃ s', del_load_balancer 1 5 (one_lb 1 "BUILD" 0 {[ "lb_building" := 20 ]})
        = Returned (not_found_response "loadbalancer", 404) s'
        ∧ lbs s' !! 1 = Some (lb_in "BUILD" 0).
Proof.
  destruct (del_load_balancer_build
              (one_lb 1 "BUILD" 0 {[ "lb_building" := 20 ]}) 1
              (lb_in "BUILD" 0) {[ "lb_building" := 20 ]} 20 5) as [H _].
  - reflexivity.
  - reflexivity.
  - reflexivity.
  - reflexivity.
  - apply H. vm_compute. reflexivity.
Defined.

(** X12: a load balancer in ERROR, or in PENDING-UPDATE with a metadata
    dict, is deleted at once: [del_load_balancer] answers 202 and removes the
    record, whether or not the pending-update dwell is over, and leaves the
    metadata as it was. *)
Theorem del_load_balancer_error_or_updating s lb_id lb t :
  lbs s !! lb_id = Some lb →
  status lb = "ERROR"
  ∨ (status lb = "PENDING-UPDATE" ∧ is_Some (meta s !! lb_id)) →
  del_load_balancer lb_id t s =
  Returned (EMPTY_RESPONSE, 202) (with_lbs (delete lb_id) s).
Proof.
  intros Hlb [Hst|[Hst [m Hm]]].
  - assert (status lb ≠ "PENDING-DELETE") as Hpd by by rewrite Hst.
    rewrite (del_after_adv s lb_id lb t Hlb Hpd).
    rewrite (adv_other s lb_id lb t Hlb true).
    + rewrite Hlb, Hst. done.
    + rewrite Hst, !not_elem_of_cons. split_and!; try done.
      apply not_elem_of_nil.
  - assert (status lb ≠ "PENDING-DELETE") as Hpd by by rewrite Hst.
    rewrite (del_after_adv s lb_id lb t Hlb Hpd).
    rewrite (adv_pending_update s lb_id lb t Hlb m true Hst Hm).
    destruct (m !! "lb_pending_update") as [d|].
    + cbn [with_lbs lbs]. rewrite lookup_insert_eq.
      cbn [status with_status].
      case_decide; (rewrite bool_decide_eq_true_2 by set_solver);
        unfold with_lbs; cbn [lbs meta]; by rewrite delete_insert_eq.
    + rewrite Hlb, Hst. done.
Qed.

Lemma del_load_balancer_error_or_updating_witness :
  del_load_balancer 1 5 (one_lb 1 "ERROR" 0 ∅) =
  Returned (EMPTY_RESPONSE, 202) (with_lbs (delete 1) (one_lb 1 "ERROR" 0 ∅)).
Proof.
  apply (del_load_balancer_error_or_updating (one_lb 1 "ERROR" 0 ∅) 1
           (lb_in "ERROR" 0) 5).
  - reflexivity.
  - left. reflexivity.
Defined.

(** X13: [del_load_balancer] raises in two situations only.  Either its
    first state check raises, and then the store is untouched; or the record
    was DELETED with its 3600 seconds over, and then the exception is
    [KeyError] for the id and the record has been removed. *)
Theorem del_load_balancer_raises_only s lb_id t e s' :
  del_load_balancer lb_id t s = Raised e s' →
  (s' = s ∧ _verify_and_update_lb_state lb_id true t s = Raised e s)
  ∨ (∃ lb, lbs s !! lb_id = Some lb ∧ status lb = "DELETED"
           ∧ 3600 ≤ elapsed lb t
           ∧ e = KeyError (KInt lb_id) ∧ s' = with_lbs (delete lb_id) s).
Proof.
  intros Hrun.
  destruct (lbs s !! lb_id) as [lb|] eqn:Hlb.
  2: { by rewrite del_absent in Hrun. }
  status_is lb "PENDING-DELETE" Hpd.
  { by rewrite (del_pending_delete s lb_id lb t Hlb Hpd) in Hrun. }
  rewrite (del_after_adv s lb_id lb t Hlb Hpd) in Hrun.
  destruct (_verify_and_update_lb_state lb_id true t s) as [[] s1|e1 s1]
    eqn:Hadv.
  2: { injection Hrun as -> ->. left.
       pose proof (adv_ends s lb_id true t) as Hend. rewrite Hadv in Hend.
       inversion Hend; by subst. }
  pose proof (adv_moves s lb_id lb true t s1 Hlb Hadv) as Hmoves.
  destruct (lbs s1 !! lb_id) as [lb1|] eqn:Hlb1.
  - case_bool_decide; [done|]. case_decide; [done|].
    case_decide as H5; [|done].
    destruct (adv_deleted_always_returns s1 lb_id lb1 true t Hlb1 H5)
      as [s2 Hs2].
    by rewrite Hs2 in Hrun.
  - injection Hrun as <- <-. right. exists lb.
    destruct Hmoves as (? & ? & ?). by split_and!.
Qed.

Lemma del_load_balancer_raises_only_witness :
  (purged_store = deleted_store
   ∧ _verify_and_update_lb_state 1 true 4000 deleted_store
     = Raised (KeyError (KInt 1)) deleted_store)
  ∨ (∃ lb, lbs deleted_store !! 1 = Some lb ∧ status lb = "DELETED"
           ∧ 3600 ≤ elapsed lb 4000
           ∧ KeyError (KInt 1) = KeyError (KInt 1)
           ∧ purged_store = with_lbs (delete 1) deleted_store).
Proof.
  apply (del_load_balancer_raises_only deleted_store 1 4000).
  reflexivity.
Defined.

(** X14: while the 3600 seconds of a DELETED load balancer are not over,
    [del_load_balancer] answers 400 with the "could not be found" body and
    leaves the store exactly as it was; the second state check of that
    branch changes nothing. *)
Theorem del_load_balancer_deleted_in_grace s lb_id lb t :
  lbs s !! lb_id = Some lb → status lb = "DELETED" →
  elapsed lb t < 3600 →
  del_load_balancer lb_id t s =
  Returned (invalid_resource (not_found_msg lb_id) 400, 400) s.
Proof. intros Hlb Hst Ht. by apply (del_deleted_in_grace s lb_id lb t). Qed.

Lemma del_load_balancer_deleted_in_grace_witness :
  del_load_balancer 1 3599 deleted_store =
  Returned
    (invalid_resource
       "Must provide valid load balancers: 1 could not be found." 400, 400)
    deleted_store.
Proof.
  apply (del_load_balancer_deleted_in_grace deleted_store 1
           (lb_in "DELETED" 0) 3599).
  - reflexivity.
  - reflexivity.
  - vm_compute. reflexivity.
Defined.

(** ** Every way a node listing can end *)

Lemma list_nodes_returned_cases s lb_id t r s' :
  list_nodes lb_id t s = Returned r s' →
  (r = (not_found_response "loadbalancer", 404) ∧ lbs s' !! lb_id = None)
  ∨ (∃ lb', lbs s' !! lb_id = Some lb'
       ∧ ((status lb' = "DELETED"
           ∧ r = (invalid_resource "The loadbalancer is marked as deleted."
                    410, 410))
          ∨ (status lb' ≠ "DELETED"
             ∧ r = (nodes_body (default [] (nodes lb')), 200)))).
Proof.
  intros Hrun.
  destruct (lbs s !! lb_id) as [lb|] eqn:Hlb.
  2: { rewrite list_nodes_absent in Hrun by done.
       injection Hrun as <- <-. by left. }
  destruct (_verify_and_update_lb_state lb_id false t s) as [[] s1|e s1]
    eqn:Hadv.
  2: { by rewrite (list_nodes_raised s lb_id lb t e s1 Hlb Hadv) in Hrun. }
  rewrite (list_nodes_present s lb_id lb t s1 Hlb Hadv) in Hrun.
  injection Hrun as <- <-.
  destruct (lbs s1 !! lb_id) as [lb1|] eqn:Hlb1; [|by left].
  right. exists lb1. split; [done|]. case_decide; auto.
Qed.

(** X15: whenever [list_nodes] returns, it answers 404 with the not-found
    body and the record is not in the store afterwards, or 410 and the
    record is there and DELETED, or 200 and the record is there, not
    DELETED, and the body holds the nodes the record had before the call
    (the empty list when it had none). *)
Theorem list_nodes_answers s lb_id t b c s' :
  list_nodes lb_id t s = Returned (b, c) s' →
  (c = 404 ∧ b = not_found_response "loadbalancer" ∧ lbs s' !! lb_id = None)
  ∨ (c = 410
     ∧ b = invalid_resource "The loadbalancer is marked as deleted." 410
     ∧ ∃ lb', lbs s' !! lb_id = Some lb' ∧ status lb' = "DELETED")
  ∨ (c = 200
     ∧ ∃ lb lb', lbs s !! lb_id = Some lb ∧ lbs s' !! lb_id = Some lb'
                 ∧ status lb' ≠ "DELETED"
                 ∧ b = nodes_body (default [] (nodes lb))).
Proof.
  intros Hrun.
  pose proof (list_nodes_touches_only lb_id t s) as [_ Hnodes].
  rewrite Hrun in Hnodes. cbn [final_store] in Hnodes.
  destruct (list_nodes_returned_cases s lb_id t (b, c) s' Hrun)
    as [[[= -> ->] Hgone]|(lb' & Hlb' & [[Hst [= -> ->]]|[Hst [= -> ->]]])].
  - by left.
  - right. left. eauto.
  - right. right. destruct (Hnodes lb' Hlb') as (lb & Hlb & ->).
    split; [done|]. by exists lb, lb'.
Qed.

Lemma list_nodes_answers_witness :
  (200 = 404 ∧ nodes_body [] = not_found_response "loadbalancer"
   ∧ lbs active_store !! 1 = None)
  ∨ (200 = 410
     ∧ nodes_body [] =
       invalid_resource "The loadbalancer is marked as deleted." 410
     ∧ ∃ lb', lbs active_store !! 1 = Some lb' ∧ status lb' = "DELETED")
  ∨ (200 = 200
     ∧ ∃ lb lb', lbs active_store !! 1 = Some lb
                 ∧ lbs active_store !! 1 = Some lb'
                 ∧ status lb' ≠ "DELETED"
                 ∧ nodes_body [] = nodes_body (default [] (nodes lb))).
Proof.
  apply (list_nodes_answers active_store 1 50).
  reflexivity.
Defined.

(** X16: [list_nodes] fails cleanly: when it raises, its state check raised
    the same exception and the store is exactly as before the call.  (The
    delete handler does not share this, see X13.) *)
Theorem list_nodes_raise_atomic s lb_id t e s' :
  list_nodes lb_id t s = Raised e s' →
  s' = s ∧ _verify_and_update_lb_state lb_id false t s = Raised e s.
Proof.
  intros Hrun.
  destruct (lbs s !! lb_id) as [lb|] eqn:Hlb.
  2: { by rewrite list_nodes_absent in Hrun. }
  destruct (_verify_and_update_lb_state lb_id false t s) as [[] s1|e1 s1]
    eqn:Hadv.
  { by rewrite (list_nodes_present s lb_id lb t s1 Hlb Hadv) in Hrun. }
  rewrite (list_nodes_raised s lb_id lb t e1 s1 Hlb Hadv) in Hrun.
  injection Hrun as -> ->.
  pose proof (adv_ends s lb_id false t) as Hend. rewrite Hadv in Hend.
  inversion Hend; by subst.
Qed.

Lemma list_nodes_raise_atomic_witness :
  one_lb 1 "BUILD" 0 ∅ = one_lb 1 "BUILD" 0 ∅
  ∧ _verify_and_update_lb_state 1 false 7 (one_lb 1 "BUILD" 0 ∅)
    = Raised (KeyError (KStr "lb_building")) (one_lb 1 "BUILD" 0 ∅).
Proof.
  apply (list_nodes_raise_atomic (one_lb 1 "BUILD" 0 ∅) 1 7).
  reflexivity.
Defined.

(** X17: listing the nodes of a DELETED load balancer is not a pure read.
    While its 3600 seconds are not over the answer is 410 and the store is
    unchanged; from then on the answer is 404 and the call itself removes
    the record. *)
Theorem list_nodes_deleted s lb_id lb t :
  lbs s !! lb_id = Some lb → status lb = "DELETED" →
  (elapsed lb t < 3600 →
   list_nodes lb_id t s =
   Returned
     (invalid_resource "The loadbalancer is marked as deleted." 410, 410) s)
  ∧ (3600 ≤ elapsed lb t →
     list_nodes lb_id t s =
     Returned (not_found_response "loadbalancer", 404)
       (with_lbs (delete lb_id) s)).
Proof.
  intros Hlb Hst.
  pose proof (adv_deleted s lb_id lb t Hlb false Hst) as Hadv.
  split; intros Ht.
  - rewrite decide_False in Hadv by lia.
    rewrite (list_nodes_present s lb_id lb t s Hlb Hadv), Hlb.
    by rewrite decide_True.
  - rewrite decide_True in Hadv by lia.
    rewrite (list_nodes_present s lb_id lb t _ Hlb Hadv).
    cbn [with_lbs lbs]. by rewrite lookup_delete_eq.
Qed.

Lemma list_nodes_deleted_witness :
  list_nodes 1 4000 deleted_store =
  Returned (not_found_response "loadbalancer", 404)
    (with_lbs (delete 1) deleted_store).
Proof.
  destruct (list_nodes_deleted deleted_store 1 (lb_in "DELETED" 0) 4000)
    as [_ H].
  - reflexivity.
  - reflexivity.
  - apply H. vm_compute. discriminate.
Defined.

(** * Deleting a node *)

(** The load balancer dict as [_delete_node] sees it: the entries of [LB]
    and the ["nodeCount"] entry that the function writes. *)
Record LBDict : Type := {
  lb_fields : LB;
  nodeCount : option Z
}.

Definition with_nodes (v : option (list Node)) (lb : LB) : LB :=
  {| status := status lb; updated_time := updated_time lb; nodes := v |}.

(** What [_delete_node] can raise: the [KeyError] of a dict lookup, and the
    [ValueError] of [list.index]. *)
Inductive node_exn : Type :=
  | NodeKeyError (k : pykey)
  | NodeValueError.

#[local] Instance timestamp_eq_dec : EqDecision timestamp.
Proof. solve_decision. Defined.

#[local] Instance Node_eq_dec : EqDecision Node.
Proof. solve_decision. Defined.

(** Delete a node by ID.  The loop runs to the first node whose ["id"] is
    [nid]; [list.index] then looks that node up by equality, the node at
    the index is deleted, an emptied list is dropped from the dict, and
    ["nodeCount"] is set to the number of nodes left.  The result is the
    returned flag and [store.lbs] as mutated. *)
Definition _delete_node (lb_id nid : Z) (store_lbs : gmap Z LBDict)
    : node_exn + (bool * gmap Z LBDict) :=
  match store_lbs !! lb_id with
  | None => inl (NodeKeyError (KInt lb_id))
  | Some d =>
      match truthy_nodes (lb_fields d) with
      | None => inr (false, store_lbs)
      | Some node_list =>
          match list_find (λ each, node_id each = nid) node_list with
          | None => inr (false, store_lbs)
          | Some (_, each) =>
              match list_find (λ n, n = each) node_list with
              | None => inl NodeValueError
              | Some (index, _) =>
                  let node_list' := delete index node_list in
                  let nodes' :=
                    match node_list' with
                    | [] => None
                    | _ :: _ => Some node_list'
                    end in
                  let count := length (default [] nodes') in
                  inr (true,
                       <[lb_id :=
                           {| lb_fields := with_nodes nodes' (lb_fields d);
                              nodeCount := Some (Z.of_nat count) |}]>
                         store_lbs)
              end
          end
      end
  end.

(** The nodes of a dict, none when the list is missing. *)
Definition nodes_of (d : LBDict) : list Node := default [] (nodes (lb_fields d)).

(** The dict [_delete_node] leaves when [rest] are the nodes that remain. *)
Definition after_delete (d : LBDict) (rest : list Node) : LBDict :=
  {| lb_fields :=
       with_nodes (match rest with [] => None | _ :: _ => Some rest end)
         (lb_fields d);
     nodeCount := Some (Z.of_nat (length rest)) |}.

Lemma truthy_nodes_of d :
  truthy_nodes (lb_fields d) =
  match nodes_of d with [] => None | n :: l => Some (n :: l) end.
Proof.
  unfold truthy_nodes, nodes_of. by destruct (nodes (lb_fields d)) as [[|n l]|].
Qed.

Lemma first_hit_is_index l1 n l2 nid :
  Forall (λ x, node_id x ≠ nid) l1 → node_id n = nid →
  list_find (λ each, node_id each = nid) (l1 ++ n :: l2)
  = Some (length l1, n)
  ∧ list_find (λ x, x = n) (l1 ++ n :: l2) = Some (length l1, n).
Proof.
  intros Hl1 Hn. split; apply list_find_Some.
  - split_and!; [apply list_lookup_middle; done|done|].
    intros j y Hj Hlt. rewrite lookup_app_l in Hj by done.
    by apply (Forall_lookup_1 _ _ _ _ Hl1 Hj).
  - split_and!; [apply list_lookup_middle; done|done|].
    intros j y Hj Hlt ->. rewrite lookup_app_l in Hj by done.
    by apply (Forall_lookup_1 _ _ _ _ Hl1 Hj).
Qed.

Lemma delete_node_hit store_lbs lb_id d nid l1 n l2 :
  store_lbs !! lb_id = Some d → nodes_of d = l1 ++ n :: l2 →
  Forall (λ x, node_id x ≠ nid) l1 → node_id n = nid →
  _delete_node lb_id nid store_lbs =
  inr (true, <[lb_id := after_delete d (l1 ++ l2)]> store_lbs).
Proof.
  intros Hd Hnodes Hl1 Hn. unfold _delete_node. rewrite Hd, truthy_nodes_of.
  rewrite Hnodes.
  destruct (first_hit_is_index l1 n l2 nid Hl1 Hn) as [Hloop Hindex].
  destruct (l1 ++ n :: l2) as [|n0 l0] eqn:Hl; [by destruct l1|].
  rewrite Hloop, Hindex. cbn zeta. rewrite <- Hl, delete_middle.
  unfold after_delete. by destruct (l1 ++ l2).
Qed.

Lemma delete_node_miss store_lbs lb_id d nid :
  store_lbs !! lb_id = Some d →
  Forall (λ x, node_id x ≠ nid) (nodes_of d) →
  _delete_node lb_id nid store_lbs = inr (false, store_lbs).
Proof.
  intros Hd Hall. unfold _delete_node. rewrite Hd, truthy_nodes_of.
  destruct (nodes_of d) as [|n l] eqn:Hl; [done|].
  by rewrite (proj2 (list_find_None _ _) Hall).
Qed.

(** Any list splits at its first node with the wanted id, if it has one. *)
Lemma split_at_first_id nid (l : list Node) :
  Forall (λ x, node_id x ≠ nid) l
  ∨ ∃ l1 n l2, l = l1 ++ n :: l2 ∧ Forall (λ x, node_id x ≠ nid) l1
               ∧ node_id n = nid.
Proof.
  induction l as [|x l IH]; [by left|].
  destruct (decide (node_id x = nid)) as [Hx|Hx].
  - right. by exists [], x, l.
  - destruct IH as [Hall|(l1 & n & l2 & -> & Hl1 & Hn)].
    + left. by constructor.
    + right. exists (x :: l1), n, l2. split_and!; [done| |done].
      by constructor.
Qed.

(** A load balancer with three nodes, two of them with id 7. *)
Definition mk_node (a : string) (i : Z) : Node :=
  {| node_address := a; node_condition := "ENABLED"; node_port := 80;
     node_weight := None; node_type := None; node_id := i;
     node_status := "ONLINE" |}.

Definition three_nodes : list Node :=
  [mk_node "10.0.0.1" 5; mk_node "10.0.0.2" 7; mk_node "10.0.0.3" 7].

Definition node_store : gmap Z LBDict :=
  {[ 1 := {| lb_fields := with_nodes (Some three_nodes) (lb_in "ACTIVE" 0);
             nodeCount := Some 3 |} ]}.

(** X18: [_delete_node] removes the first node that has the id and no other:
    when the nodes are [l1 ++ n :: l2] with [n] the first node with id
    [nid], the call returns True and leaves the nodes [l1 ++ l2] in their
    order, with the status, the update time and every other load balancer
    untouched. *)
Theorem delete_node_removes_first store_lbs lb_id d nid l1 n l2 :
  store_lbs !! lb_id = Some d → nodes_of d = l1 ++ n :: l2 →
  Forall (λ x, node_id x ≠ nid) l1 → node_id n = nid →
  ∃ store_lbs' d',
    _delete_node lb_id nid store_lbs = inr (true, store_lbs')
    ∧ store_lbs' !! lb_id = Some d'
    ∧ nodes_of d' = l1 ++ l2
    ∧ status (lb_fields d') = status (lb_fields d)
    ∧ updated_time (lb_fields d') = updated_time (lb_fields d)
    ∧ ∀ other, other ≠ lb_id → store_lbs' !! other = store_lbs !! other.
Proof.
  intros Hd Hnodes Hl1 Hn. eexists _, _. split.
  { by apply (delete_node_hit store_lbs lb_id d nid l1 n l2). }
  split; [apply lookup_insert_eq|]. split_and!; try done.
  - unfold nodes_of, after_delete. cbn. by destruct (l1 ++ l2).
  - intros other Hne. by rewrite lookup_insert_ne.
Qed.

Lemma delete_node_removes_first_witness :
  ∃ store_lbs' d',
    _delete_node 1 7 node_store = inr (true, store_lbs')
    ∧ store_lbs' !! 1 = Some d'
    ∧ nodes_of d' = [mk_node "10.0.0.1" 5; mk_node "10.0.0.3" 7].
Proof.
  destruct (delete_node_removes_first node_store 1
              {| lb_fields := with_nodes (Some three_nodes) (lb_in "ACTIVE" 0);
                 nodeCount := Some 3 |}
              7 [mk_node "10.0.0.1" 5] (mk_node "10.0.0.2" 7)
              [mk_node "10.0.0.3" 7])
    as (L' & d' & Hrun & Hd' & Hnodes & _).
  - reflexivity.
  - reflexivity.
  - repeat constructor. vm_compute. discriminate.
  - reflexivity.
  - exists L', d'. split_and!; [exact Hrun | exact Hd' | exact Hnodes].
Defined.

(** X19: for a load balancer that is in the store, [_delete_node] returns
    False exactly when no node has the id (also when there is no node list
    or an empty one), and a call that returns False leaves the store as it
    was. *)
Theorem delete_node_false_iff store_lbs lb_id d nid b store_lbs' :
  store_lbs !! lb_id = Some d →
  _delete_node lb_id nid store_lbs = inr (b, store_lbs') →
  (b = false ↔ Forall (λ x, node_id x ≠ nid) (nodes_of d))
  ∧ (b = false → store_lbs' = store_lbs).
Proof.
  intros Hd Hrun.
  destruct (split_at_first_id nid (nodes_of d))
    as [Hall|(l1 & n & l2 & Hnodes & Hl1 & Hn)].
  - rewrite (delete_node_miss store_lbs lb_id d nid Hd Hall) in Hrun.
    by injection Hrun as <- <-.
  - rewrite (delete_node_hit store_lbs lb_id d nid l1 n l2 Hd Hnodes Hl1 Hn)
      in Hrun.
    injection Hrun as <- <-. split; [|done]. split; [done|].
    rewrite Hnodes, Forall_app, Forall_cons. tauto.
Qed.

Lemma delete_node_false_iff_witness :
  (false = false ↔ Forall (λ x, node_id x ≠ 9) three_nodes)
  ∧ (false = false → node_store = node_store).
Proof.
  apply (delete_node_false_iff node_store 1
           {| lb_fields := with_nodes (Some three_nodes) (lb_in "ACTIVE" 0);
              nodeCount := Some 3 |} 9).
  - reflexivity.
  - reflexivity.
Defined.

(** X20: [_delete_node] raises only for a load balancer that is not in the
    store, and then it is [KeyError] for the id; the [list.index] lookup of
    the node found by the loop never fails. *)
Theorem delete_node_raises_iff store_lbs lb_id nid e :
  _delete_node lb_id nid store_lbs = inl e
  ↔ store_lbs !! lb_id = None ∧ e = NodeKeyError (KInt lb_id).
Proof.
  split.
  - intros Hrun. destruct (store_lbs !! lb_id) as [d|] eqn:Hd.
    + destruct (split_at_first_id nid (nodes_of d))
        as [Hall|(l1 & n & l2 & Hnodes & Hl1 & Hn)].
      * by rewrite (delete_node_miss store_lbs lb_id d nid Hd Hall) in Hrun.
      * by rewrite (delete_node_hit store_lbs lb_id d nid l1 n l2 Hd Hnodes
                      Hl1 Hn) in Hrun.
    + unfold _delete_node in Hrun. rewrite Hd in Hrun. by injection Hrun as <-.
  - intros [Hd ->]. unfold _delete_node. by rewrite Hd.
Qed.

(** X21: after a [_delete_node] call that returned True, ["nodeCount"] is
    the number of nodes the load balancer has, that number is one less than
    before (also when several nodes shared the id), and the dict never
    holds an empty node list: the last node takes the ["nodes"] entry with
    it. *)
Theorem delete_node_count store_lbs lb_id d nid store_lbs' :
  store_lbs !! lb_id = Some d →
  _delete_node lb_id nid store_lbs = inr (true, store_lbs') →
  ∃ d', store_lbs' !! lb_id = Some d'
        ∧ nodeCount d' = Some (Z.of_nat (length (nodes_of d')))
        ∧ (length (nodes_of d') + 1 = length (nodes_of d))%nat
        ∧ nodes (lb_fields d') ≠ Some []
        ∧ (length (nodes_of d) = 1%nat → nodes (lb_fields d') = None
                                         ∧ nodeCount d' = Some 0).
Proof.
  intros Hd Hrun.
  destruct (split_at_first_id nid (nodes_of d))
    as [Hall|(l1 & n & l2 & Hnodes & Hl1 & Hn)].
  { by rewrite (delete_node_miss store_lbs lb_id d nid Hd Hall) in Hrun. }
  rewrite (delete_node_hit store_lbs lb_id d nid l1 n l2 Hd Hnodes Hl1 Hn)
    in Hrun.
  injection Hrun as <-. eexists. split; [apply lookup_insert_eq|].
  rewrite Hnodes. unfold nodes_of, after_delete. cbn.
  rewrite !length_app. cbn.
  destruct (l1 ++ l2) as [|x rest] eqn:Hrest; cbn.
  - apply app_eq_nil in Hrest as [-> ->]. by split_and!.
  - apply (f_equal length) in Hrest. rewrite length_app in Hrest.
    cbn in Hrest. rewrite Hrest.
    split_and!; [done | lia | done | intros ?; lia].
Qed.

(** A load balancer whose only node has id 5. *)
Definition single_node_dict : LBDict :=
  {| lb_fields := with_nodes (Some [mk_node "10.0.0.1" 5]) (lb_in "ACTIVE" 0);
     nodeCount := Some 1 |}.

Definition single_node_store : gmap Z LBDict := {[ 1 := single_node_dict ]}.

Lemma delete_node_count_witness :
  ∃ d', <[1 := after_delete single_node_dict []]> single_node_store !! 1
        = Some d'
        ∧ nodes (lb_fields d') = None ∧ nodeCount d' = Some 0.
Proof.
  destruct (delete_node_count single_node_store 1 single_node_dict 5
              (<[1 := after_delete single_node_dict []]> single_node_store))
    as (d' & Hd' & _ & _ & _ & Hlast).
  - reflexivity.
  - reflexivity.
  - exists d'. split; [exact Hd'|]. apply Hlast. reflexivity.
Defined.

(** X22: when the node ids of a load balancer are all different, a node can
    be deleted once: after a call that returned True, a second call with the
    same id returns False and changes nothing. *)
Theorem delete_node_twice store_lbs lb_id d nid store_lbs' :
  store_lbs !! lb_id = Some d →
  NoDup (node_id <$> nodes_of d) →
  _delete_node lb_id nid store_lbs = inr (true, store_lbs') →
  _delete_node lb_id nid store_lbs' = inr (false, store_lbs').
Proof.
  intros Hd Hnodup Hrun.
  destruct (split_at_first_id nid (nodes_of d))
    as [Hall|(l1 & n & l2 & Hnodes & Hl1 & Hn)].
  { by rewrite (delete_node_miss store_lbs lb_id d nid Hd Hall) in Hrun. }
  rewrite (delete_node_hit store_lbs lb_id d nid l1 n l2 Hd Hnodes Hl1 Hn)
    in Hrun.
  injection Hrun as <-.
  apply (delete_node_miss _ lb_id (after_delete d (l1 ++ l2)));
    [apply lookup_insert_eq|].
  assert (nodes_of (after_delete d (l1 ++ l2)) = l1 ++ l2) as ->.
  { unfold nodes_of, after_delete. cbn. by destruct (l1 ++ l2). }
  rewrite Hnodes, fmap_app, fmap_cons in Hnodup.
  apply NoDup_app in Hnodup as (_ & _ & Hnd).
  apply NoDup_cons in Hnd as [Hnotin _].
  apply Forall_app. split; [done|].
  apply Forall_forall. intros x Hx Hid. apply Hnotin.
  rewrite Hn, <- Hid. apply list_elem_of_fmap. by exists x.
Qed.

Lemma delete_node_twice_witness :
  _delete_node 1 5 (<[1 := after_delete single_node_dict []]> single_node_store)
  = inr (false, <[1 := after_delete single_node_dict []]> single_node_store).
Proof.
  apply (delete_node_twice single_node_store 1 single_node_dict 5).
  - reflexivity.
  - vm_compute. repeat constructor; set_solver.
  - reflexivity.
Defined.

(** The store the handlers of the claims see: the dicts without their
    ["nodeCount"] entry, which those handlers never read. *)
Definition store_of (store_lbs : gmap Z LBDict) (store_meta : gmap Z (gmap string Z))
    : Store :=
  {| lbs := lb_fields <$> store_lbs; meta := store_meta |}.

(** X23: a deleted node is no longer listed.  After [_delete_node] has
    removed the first node with the id from an ACTIVE load balancer,
    [list_nodes] answers 200 with exactly the other nodes, in their order,
    and with the empty list when the node was the last one. *)
Theorem list_nodes_after_delete_node store_lbs store_meta lb_id d nid l1 n l2
    store_lbs' t :
  store_lbs !! lb_id = Some d → status (lb_fields d) = "ACTIVE" →
  nodes_of d = l1 ++ n :: l2 →
  Forall (λ x, node_id x ≠ nid) l1 → node_id n = nid →
  _delete_node lb_id nid store_lbs = inr (true, store_lbs') →
  list_nodes lb_id t (store_of store_lbs' store_meta) =
  Returned (nodes_body (l1 ++ l2), 200) (store_of store_lbs' store_meta).
Proof.
  intros Hd Hst Hnodes Hl1 Hn Hrun.
  rewrite (delete_node_hit store_lbs lb_id d nid l1 n l2 Hd Hnodes Hl1 Hn)
    in Hrun.
  injection Hrun as <-.
  set (s := store_of _ _).
  assert (lbs s !! lb_id = Some (lb_fields (after_delete d (l1 ++ l2))))
    as Hlb.
  { subst s. unfold store_of. cbn [lbs].
    by rewrite lookup_fmap, lookup_insert_eq. }
  assert (status (lb_fields (after_delete d (l1 ++ l2))) = "ACTIVE") as Hst'
    by done.
  pose proof (adv_active_read s lb_id _ t Hlb Hst') as Hadv.
  rewrite (list_nodes_present s lb_id _ t s Hlb Hadv), Hlb.
  rewrite decide_False by by rewrite Hst'.
  do 3 f_equal. unfold after_delete. cbn. by destruct (l1 ++ l2).
Qed.

Lemma list_nodes_after_delete_node_witness :
  list_nodes 1 50
    (store_of (<[1 := after_delete single_node_dict []]> single_node_store)
       {[ 1 := ∅ ]})
  = Returned (nodes_body [], 200)
      (store_of (<[1 := after_delete single_node_dict []]> single_node_store)
         {[ 1 := ∅ ]}).
Proof.
  apply (list_nodes_after_delete_node single_node_store {[ 1 := ∅ ]} 1
           single_node_dict 5 [] (mk_node "10.0.0.1" 5) []).
  - reflexivity.
  - reflexivity.
  - reflexivity.
  - constructor.
  - reflexivity.
  - reflexivity.
Defined.

(** * Shaping load balancer dicts for a response *)

(** The entries [_prep_for_list] keeps, in the order it reads them. *)
Definition entries_to_keep : list string :=
  ["name"; "protocol"; "id"; "port"; "algorithm"; "status"; "timeout";
   "created"; "virtualIps"; "updated"; "nodeCount"].

Section Dicts.
(** The values of a dict are left abstract: both functions only move them. *)
Context {V : Type}.

(** The generator [(entry, each[entry]) for entry in entries]: it stops at
    the first entry that [each] does not have. *)
Fixpoint pick_entries (each : gmap string V) (entries : list string)
    : exn + list (string * V) :=
  match entries with
  | [] => inr []
  | entry :: entries' =>
      match each !! entry with
      | None => inl (KeyError (KStr entry))
      | Some v =>
          match pick_entries each entries' with
          | inl e => inl e
          | inr pairs => inr ((entry, v) :: pairs)
          end
      end
  end.

(** [dict(pairs)]: a later pair overwrites an earlier one with its key. *)
Definition dict_of (pairs : list (string * V)) : gmap string V :=
  foldl (λ d kv, <[kv.1 := kv.2]> d) ∅ pairs.

(** Removes tenant id and changes the nodes list to 'nodeCount' set to the
    number of node on the LB. *)
Fixpoint _prep_for_list (lb_list : list (gmap string V))
    : exn + list (gmap string V) :=
  match lb_list with
  | [] => inr []
  | each :: lb_list' =>
      match pick_entries each entries_to_keep with
      | inl e => inl e
      | inr pairs =>
          match _prep_for_list lb_list' with
          | inl e => inl e
          | inr filtered_lb_list => inr (dict_of pairs :: filtered_lb_list)
          end
      end
  end.

(** Returns a copy of the store for the given lb_id, without tenant_id.
    The copy is deep, so the store itself is not touched. *)
Definition _lb_without_tenant (store_lbs : gmap Z (gmap string V)) (lb_id : Z)
    : exn + gmap string V :=
  match store_lbs !! lb_id with
  | None => inl (KeyError (KInt lb_id))
  | Some d =>
      let new_lb := d in
      match new_lb !! "tenant_id" with
      | None => inl (KeyError (KStr "tenant_id"))
      | Some _ =>
          let new_lb := delete "tenant_id" new_lb in
          match new_lb !! "nodeCount" with
          | None => inl (KeyError (KStr "nodeCount"))
          | Some _ => inr (delete "nodeCount" new_lb)
          end
      end
  end.

(** [r] is [each] cut down to the kept entries. *)
Definition cut_to_kept (each r : gmap string V) : Prop :=
  ∀ k, r !! k = if decide (k ∈ entries_to_keep) then each !! k else None.

Lemma pick_entries_ok each entries :
  Forall (λ k, is_Some (each !! k)) entries →
  ∃ pairs,
    pick_entries each entries = inr pairs
    ∧ ∀ (acc : gmap string V) k,
        foldl (λ d kv, <[kv.1 := kv.2]> d) acc pairs !! k =
        if decide (k ∈ entries) then each !! k else acc !! k.
Proof.
  induction 1 as [|entry entries [v Hv] _ (pairs & Hpick & Hfold)].
  - exists []. split; [done|]. intros acc k. cbn.
    rewrite decide_False; [done|apply not_elem_of_nil].
  - exists ((entry, v) :: pairs). cbn [pick_entries]. rewrite Hv, Hpick.
    split; [done|]. intros acc k. cbn [foldl fst snd]. rewrite Hfold.
    destruct (decide (k ∈ entries)) as [Hin|Hnin].
    + rewrite decide_True; [done|by right].
    + destruct (decide (k = entry)) as [->|Hne].
      * rewrite lookup_insert_eq, decide_True; [done|by left].
      * rewrite lookup_insert_ne by done.
        rewrite decide_False; [done|]. rewrite elem_of_cons. tauto.
Qed.

Lemma pick_entries_inl each entries e :
  pick_entries each entries = inl e →
  ∃ k, k ∈ entries ∧ each !! k = None ∧ e = KeyError (KStr k).
Proof.
  induction entries as [|entry entries IH]; [done|]. cbn [pick_entries].
  destruct (each !! entry) as [v|] eqn:Hv.
  - destruct (pick_entries each entries) as [e'|pairs]; [|done].
    intros [= <-]. destruct (IH eq_refl) as (k & Hk & Hnone & ->).
    exists k. split_and!; [by right|done..].
  - intros [= <-]. exists entry. split_and!; [by left|done..].
Qed.

Lemma pick_entries_inr each entries pairs :
  pick_entries each entries = inr pairs →
  Forall (λ k, is_Some (each !! k)) entries.
Proof.
  revert pairs. induction entries as [|entry entries IH]; intros pairs;
    [by constructor|].
  cbn [pick_entries]. destruct (each !! entry) as [v|] eqn:Hv; [|done].
  destruct (pick_entries each entries) as [e'|pairs'] eqn:Hp; [done|].
  intros _. constructor; [by eexists|]. by apply (IH pairs').
Qed.

Lemma prep_ok lb_list :
  Forall (λ each, Forall (λ k, is_Some (each !! k)) entries_to_keep) lb_list →
  ∃ out, _prep_for_list lb_list = inr out ∧ Forall2 cut_to_kept lb_list out.
Proof.
  induction 1 as [|each lb_list Heach _ (out & Hprep & Hout)].
  - exists []. by split; [|constructor].
  - destruct (pick_entries_ok each entries_to_keep Heach)
      as (pairs & Hpick & Hfold).
    exists (dict_of pairs :: out). cbn [_prep_for_list].
    rewrite Hpick, Hprep. split; [done|]. constructor; [|done].
    intros k. unfold dict_of. rewrite Hfold. by rewrite lookup_empty.
Qed.

Lemma prep_inr lb_list out :
  _prep_for_list lb_list = inr out →
  Forall (λ each, Forall (λ k, is_Some (each !! k)) entries_to_keep) lb_list.
Proof.
  revert out. induction lb_list as [|each lb_list IH]; intros out;
    [by constructor|].
  cbn [_prep_for_list].
  destruct (pick_entries each entries_to_keep) as [e|pairs] eqn:Hpick;
    [done|].
  destruct (_prep_for_list lb_list) as [e|out'] eqn:Hprep; [done|].
  intros _. constructor; [by apply (pick_entries_inr _ _ pairs)|].
  by apply (IH out').
Qed.

Lemma prep_inl lb_list e :
  _prep_for_list lb_list = inl e →
  ∃ each k, each ∈ lb_list ∧ k ∈ entries_to_keep ∧ each !! k = None
            ∧ e = KeyError (KStr k).
Proof.
  induction lb_list as [|each lb_list IH]; [done|]. cbn [_prep_for_list].
  destruct (pick_entries each entries_to_keep) as [e'|pairs] eqn:Hpick.
  - intros [= <-].
    destruct (pick_entries_inl _ _ _ Hpick) as (k & Hk & Hnone & ->).
    exists each, k. split_and!; [by left|done..].
  - destruct (_prep_for_list lb_list) as [e'|out']; [|done].
    intros [= <-]. destruct (IH eq_refl) as (each' & k & Hin & Hk & Hnone & ->).
    exists each', k. split_and!; [by right|done..].
Qed.
End Dicts.

(** A dict with every kept entry, a tenant id and a node list. *)
Definition full_dict : gmap string Z :=
  <["tenant_id" := 11]> (<["nodes" := 12]>
    (list_to_map ((λ k, (k, 1)) <$> entries_to_keep))).

(** X24: when every dict of the list has all eleven kept entries,
    [_prep_for_list] returns one dict per input dict, in order, and each
    output dict is its input cut down to exactly those entries: it agrees
    with the input on them and has nothing else, so neither ["tenant_id"]
    nor ["nodes"] gets through. *)
Theorem prep_for_list_keeps {V} (lb_list : list (gmap string V)) :
  Forall (λ each, Forall (λ k, is_Some (each !! k)) entries_to_keep) lb_list →
  ∃ out,
    _prep_for_list lb_list = inr out
    ∧ length out = length lb_list
    ∧ Forall2
        (λ each r, ∀ k, r !! k = if decide (k ∈ entries_to_keep)
                                 then each !! k else None) lb_list out
    ∧ Forall (λ r, r !! "tenant_id" = None ∧ r !! "nodes" = None) out.
Proof.
  intros Hall. destruct (prep_ok lb_list Hall) as (out & Hprep & Hcut).
  exists out. split_and!; [done|by rewrite (Forall2_length _ _ _ Hcut)|done|].
  apply Forall_forall. intros r Hr.
  destruct (list_elem_of_lookup_1 _ _ Hr) as [i Hi].
  destruct (Forall2_lookup_r _ _ _ _ _ Hcut Hi) as (each & _ & Heach).
  split; rewrite Heach; by vm_compute.
Qed.

Lemma prep_for_list_keeps_witness :
  ∃ out,
    _prep_for_list [full_dict; full_dict] = inr out
    ∧ length out = 2%nat
    ∧ Forall (λ r, r !! "tenant_id" = None ∧ r !! "nodes" = None) out.
Proof.
  destruct (prep_for_list_keeps [full_dict; full_dict])
    as (out & Hprep & Hlen & _ & Hhidden).
  - repeat constructor; vm_compute; eauto.
  - exists out. split_and!; [exact Hprep | exact Hlen | exact Hhidden].
Defined.

(** X25: [_prep_for_list] raises only [KeyError], and only for a kept entry
    that one of the dicts does not have. *)
Theorem prep_for_list_raises {V} (lb_list : list (gmap string V)) e :
  _prep_for_list lb_list = inl e →
  ∃ each k, each ∈ lb_list ∧ k ∈ entries_to_keep ∧ each !! k = None
            ∧ e = KeyError (KStr k).
Proof. apply prep_inl. Qed.

Lemma prep_for_list_raises_witness :
  ∃ each k, each ∈ [full_dict; delete "port" full_dict]
            ∧ k ∈ entries_to_keep ∧ each !! k = None
            ∧ KeyError (KStr "port") = KeyError (KStr k).
Proof.
  apply (prep_for_list_raises [full_dict; delete "port" full_dict]).
  reflexivity.
Defined.

Lemma cut_to_kept_again {V} (each r : gmap string V) :
  cut_to_kept each r → cut_to_kept r r.
Proof.
  intros Hr k. destruct (decide (k ∈ entries_to_keep)) as [Hk|Hk]; [done|].
  by rewrite Hr, decide_False.
Qed.

Lemma cut_to_kept_unique {V} (each r r' : gmap string V) :
  cut_to_kept each r → cut_to_kept each r' → r = r'.
Proof. intros Hr Hr'. apply map_eq. intros k. by rewrite Hr, Hr'. Qed.

Lemma Forall2_cut_again {V} (l out : list (gmap string V)) :
  Forall2 cut_to_kept l out → Forall2 cut_to_kept out out.
Proof.
  induction 1 as [|each r l out Hr _ IH]; constructor; [|done].
  by apply (cut_to_kept_again each).
Qed.

Lemma Forall2_cut_unique {V} (l out out' : list (gmap string V)) :
  Forall2 cut_to_kept l out → Forall2 cut_to_kept l out' → out = out'.
Proof.
  intros H. revert out'.
  induction H as [|each r l out Hr _ IH]; intros out' H'.
  - by apply Forall2_nil_inv_l in H'.
  - apply Forall2_cons_inv_l in H' as (r' & out'' & Hr' & Hout'' & ->).
    f_equal; [by apply (cut_to_kept_unique each)|by apply IH].
Qed.

(** X26: [_prep_for_list] is idempotent: a list it returned goes through it
    unchanged. *)
Theorem prep_for_list_idempotent {V} (lb_list out : list (gmap string V)) :
  _prep_for_list lb_list = inr out → _prep_for_list out = inr out.
Proof.
  intros Hprep. pose proof (prep_inr lb_list out Hprep) as Hall.
  destruct (prep_ok lb_list Hall) as (out0 & Hprep0 & Hcut).
  rewrite Hprep in Hprep0. injection Hprep0 as <-.
  assert (Forall (λ r, Forall (λ k, is_Some (r !! k)) entries_to_keep) out)
    as Hout.
  { apply Forall_forall. intros r Hr.
    destruct (list_elem_of_lookup_1 _ _ Hr) as [i Hi].
    destruct (Forall2_lookup_r _ _ _ _ _ Hcut Hi) as (each & Hli & Heach).
    apply Forall_forall. intros k Hk. rewrite Heach, decide_True by done.
    pose proof (Forall_lookup_1 _ _ _ _ Hall Hli) as Hcomplete.
    by apply (proj1 (Forall_forall _ _) Hcomplete). }
  destruct (prep_ok out Hout) as (out' & Hprep' & Hcut').
  rewrite Hprep'. f_equal.
  apply (Forall2_cut_unique out); [done|]. by apply (Forall2_cut_again lb_list).
Qed.

Lemma prep_for_list_idempotent_witness :
  _prep_for_list [delete "nodes" (delete "tenant_id" full_dict)]
  = inr [delete "nodes" (delete "tenant_id" full_dict)].
Proof.
  apply (prep_for_list_idempotent [full_dict]).
  vm_compute. reflexivity.
Defined.

(** X27: [_lb_without_tenant] returns a dict exactly when the load balancer
    is in the store and its dict has both ["tenant_id"] and ["nodeCount"];
    the result has neither of the two and agrees with the stored dict on
    every other key.  Otherwise it raises [KeyError]: for the id, for
    ["tenant_id"] (looked at first, also when both are missing), or for
    ["nodeCount"]. *)
Theorem lb_without_tenant_cases {V} (store_lbs : gmap Z (gmap string V)) lb_id :
  match store_lbs !! lb_id with
  | None => _lb_without_tenant store_lbs lb_id = inl (KeyError (KInt lb_id))
  | Some d =>
      match d !! "tenant_id", d !! "nodeCount" with
      | None, _ =>
          _lb_without_tenant store_lbs lb_id
          = inl (KeyError (KStr "tenant_id"))
      | Some _, None =>
          _lb_without_tenant store_lbs lb_id
          = inl (KeyError (KStr "nodeCount"))
      | Some _, Some _ =>
          ∃ new_lb,
            _lb_without_tenant store_lbs lb_id = inr new_lb
            ∧ new_lb !! "tenant_id" = None
            ∧ new_lb !! "nodeCount" = None
            ∧ ∀ k, k ≠ "tenant_id" → k ≠ "nodeCount" →
                   new_lb !! k = d !! k
      end
  end.
Proof.
  unfold _lb_without_tenant.
  destruct (store_lbs !! lb_id) as [d|]; [|done]. cbn zeta.
  destruct (d !! "tenant_id") as [tenant|] eqn:Ht; [|done].
  rewrite lookup_delete_ne by done.
  destruct (d !! "nodeCount") as [count|] eqn:Hc; [|done].
  eexists. split_and!; [done| | |].
  - rewrite lookup_delete_ne by done. apply lookup_delete_eq.
  - apply lookup_delete_eq.
  - intros k Hk1 Hk2. by rewrite !lookup_delete_ne.
Qed.

(** * Formatting the nodes of a request *)

(** A node dict of a request: any of its keys may be missing. *)
Record NodeInfo : Type := {
  info_address : option string;
  info_condition : option string;
  info_port : option Z;
  info_weight : option Z;
  info_type : option string
}.

(** [each.get(key)] followed by a truth test, for an integer and for a
    string: zero and the empty string count as missing. *)
Definition truthy_int (x : option Z) : option Z :=
  match x with
  | Some v => if decide (v = 0) then None else Some v
  | None => None
  end.

Definition truthy_str (x : option string) : option string :=
  match x with
  | Some v => if decide (v = "") then None else Some v
  | None => None
  end.

(** Create a dict of nodes given the list of nodes.  [draws k] is what the
    [k]-th call of [randrange(999999)] gives; [drawn] calls have been made
    before. *)
Fixpoint _format_nodes_on_lb (draws : nat → Z) (drawn : nat)
    (node_list : list NodeInfo) : exn + list Node :=
  match node_list with
  | [] => inr []
  | each :: node_list' =>
      match info_address each with
      | None => inl (KeyError (KStr "address"))
      | Some address =>
          match info_condition each with
          | None => inl (KeyError (KStr "condition"))
          | Some condition =>
              match info_port each with
              | None => inl (KeyError (KStr "port"))
              | Some port =>
                  let node :=
                    {| node_address := address;
                       node_condition := condition;
                       node_port := port;
                       node_weight := truthy_int (info_weight each);
                       node_type := truthy_str (info_type each);
                       node_id := draws drawn;
                       node_status := "ONLINE" |} in
                  match _format_nodes_on_lb draws (S drawn) node_list' with
                  | inl e => inl e
                  | inr nodes => inr (node :: nodes)
                  end
              end
          end
      end
  end.

(** The node dict has the three keys the loop indexes. *)
Definition info_complete (each : NodeInfo) : Prop :=
  is_Some (info_address each) ∧ is_Some (info_condition each)
  ∧ is_Some (info_port each).

(** [node] is what the loop makes of [each] with the draw [r]. *)
Definition formatted (r : Z) (each : NodeInfo) (node : Node) : Prop :=
  info_address each = Some (node_address node)
  ∧ info_condition each = Some (node_condition node)
  ∧ info_port each = Some (node_port node)
  ∧ node_weight node = truthy_int (info_weight each)
  ∧ node_type node = truthy_str (info_type each)
  ∧ node_id node = r
  ∧ node_status node = "ONLINE".

Lemma format_nodes_ok draws drawn node_list :
  Forall info_complete node_list →
  ∃ out,
    _format_nodes_on_lb draws drawn node_list = inr out
    ∧ length out = length node_list
    ∧ ∀ i each node,
        node_list !! i = Some each → out !! i = Some node →
        formatted (draws (drawn + i)%nat) each node.
Proof.
  intros Hall. revert drawn.
  induction Hall as [|each node_list ([a Ha] & [c Hc] & [p Hp]) _ IH];
    intros drawn.
  - exists []. by split_and!.
  - destruct (IH (S drawn)) as (out & Hrun & Hlen & Hout).
    cbn [_format_nodes_on_lb]. rewrite Ha, Hc, Hp, Hrun. eexists.
    split; [done|]. split; [cbn; by rewrite Hlen|].
    intros [|i] each' node Hi Ho; cbn in Hi, Ho.
    + injection Hi as <-. injection Ho as <-.
      rewrite Nat.add_0_r. by repeat split.
    + replace (drawn + S i)%nat with (S drawn + i)%nat by lia.
      by apply Hout.
Qed.

Lemma format_nodes_inl draws drawn node_list e :
  _format_nodes_on_lb draws drawn node_list = inl e →
  ∃ each, each ∈ node_list
    ∧ ((info_address each = None ∧ e = KeyError (KStr "address"))
       ∨ (is_Some (info_address each) ∧ info_condition each = None
          ∧ e = KeyError (KStr "condition"))
       ∨ (is_Some (info_address each) ∧ is_Some (info_condition each)
          ∧ info_port each = None ∧ e = KeyError (KStr "port"))).
Proof.
  revert drawn. induction node_list as [|each node_list IH]; intros drawn;
    [done|].
  cbn [_format_nodes_on_lb].
  destruct (info_address each) as [a|] eqn:Ha.
  2: { intros [= <-]. exists each. split; [by left|]. by left. }
  destruct (info_condition each) as [c|] eqn:Hc.
  2: { intros [= <-]. exists each. split; [by left|]. right. left.
       rewrite Ha. eauto. }
  destruct (info_port each) as [p|] eqn:Hp.
  2: { intros [= <-]. exists each. split; [by left|]. right. right.
       rewrite Ha, Hc. eauto. }
  destruct (_format_nodes_on_lb draws (S drawn) node_list) as [e'|out] eqn:Hrun;
    [|done].
  intros [= <-]. destruct (IH _ Hrun) as (each' & Hin & Hcase).
  exists each'. split; [by right|done].
Qed.

(** A complete node dict with a zero weight, and one without a port. *)
Definition good_info : NodeInfo :=
  {| info_address := Some "10.0.0.1"; info_condition := Some "ENABLED";
     info_port := Some 80; info_weight := Some 0; info_type := Some "" |}.

Definition no_port_info : NodeInfo :=
  {| info_address := Some "10.0.0.2"; info_condition := Some "ENABLED";
     info_port := None; info_weight := None; info_type := None |}.

(** X28: for node dicts that all have an address, a condition and a port,
    [_format_nodes_on_lb] returns one node per dict, in order.  Each node
    has the address, condition and port of its dict, the status ONLINE, the
    weight and type of the dict unless they are missing, zero or empty, and
    as id the draw made for it; the id is in [0, 999999) when the draws
    are. *)
Theorem format_nodes_on_lb_fields draws drawn node_list :
  Forall info_complete node_list →
  ∃ out,
    _format_nodes_on_lb draws drawn node_list = inr out
    ∧ length out = length node_list
    ∧ (∀ i each node,
         node_list !! i = Some each → out !! i = Some node →
         info_address each = Some (node_address node)
         ∧ info_condition each = Some (node_condition node)
         ∧ info_port each = Some (node_port node)
         ∧ node_weight node = truthy_int (info_weight each)
         ∧ node_type node = truthy_str (info_type each)
         ∧ node_id node = draws (drawn + i)%nat
         ∧ node_status node = "ONLINE")
    ∧ ((∀ k, 0 ≤ draws k < 999999) →
       Forall (λ node, 0 ≤ node_id node < 999999) out).
Proof.
  intros Hall.
  destruct (format_nodes_ok draws drawn node_list Hall)
    as (out & Hrun & Hlen & Hout).
  exists out. split_and!; [done..|].
  intros Hrange. apply Forall_forall. intros node Hnode.
  destruct (list_elem_of_lookup_1 _ _ Hnode) as [i Hi].
  destruct (node_list !! i) as [each|] eqn:Heach.
  - destruct (Hout i each node Heach Hi) as (_ & _ & _ & _ & _ & -> & _).
    apply Hrange.
  - apply lookup_ge_None in Heach. apply lookup_lt_Some in Hi. lia.
Qed.

Lemma format_nodes_on_lb_fields_witness :
  ∃ out,
    _format_nodes_on_lb (λ _, 42) 0 [good_info; good_info] = inr out
    ∧ length out = 2%nat
    ∧ Forall (λ node, 0 ≤ node_id node < 999999) out.
Proof.
  destruct (format_nodes_on_lb_fields (λ _, 42) 0%nat [good_info; good_info])
    as (out & Hrun & Hlen & _ & Hrange).
  - repeat constructor; vm_compute; eauto.
  - exists out. split_and!; [exact Hrun | exact Hlen |].
    apply Hrange. intros k. lia.
Defined.

(** X29: [_format_nodes_on_lb] raises only [KeyError], and only because
    some node dict lacks its address, its condition or its port; the key
    named is the first of the three, in that order, that the dict lacks. *)
Theorem format_nodes_on_lb_raises draws drawn node_list e :
  _format_nodes_on_lb draws drawn node_list = inl e →
  ∃ each, each ∈ node_list
    ∧ ((info_address each = None ∧ e = KeyError (KStr "address"))
       ∨ (is_Some (info_address each) ∧ info_condition each = None
          ∧ e = KeyError (KStr "condition"))
       ∨ (is_Some (info_address each) ∧ is_Some (info_condition each)
          ∧ info_port each = None ∧ e = KeyError (KStr "port"))).
Proof. apply format_nodes_inl. Qed.

Lemma format_nodes_on_lb_raises_witness :
  ∃ each, each ∈ [good_info; no_port_info]
    ∧ ((info_address each = None
        ∧ KeyError (KStr "port") = KeyError (KStr "address"))
       ∨ (is_Some (info_address each) ∧ info_condition each = None
          ∧ KeyError (KStr "port") = KeyError (KStr "condition"))
       ∨ (is_Some (info_address each) ∧ is_Some (info_condition each)
          ∧ info_port each = None
          ∧ KeyError (KStr "port") = KeyError (KStr "port"))).
Proof.
  apply (format_nodes_on_lb_raises (λ _, 42) 0%nat [good_info; no_port_info]).
  reflexivity.
Defined.
